(** * The static-asset publisher of [docs/conf.py]

    [docs/conf.py] is a Sphinx configuration module.  Its only executable
    logic is [copy_julia_html_page], which copies the page [K-matrix.html]
    from the working directory into [_static] when the page is there:

<<
    def copy_julia_html_page() -> list[str]:
        html_page = Path("K-matrix.html")
        if html_page.exists():
            static_path = Path("_static")
            shutil.copy(html_page, static_path / html_page)
            return [str(static_path / html_page)]
        return []
>>

    The function is embedded over an interface of the two library calls it
    makes ([Path.exists] and [shutil.copy]); the interface is then
    implemented by a model of a POSIX directory tree, following what
    CPython's [pathlib], [os.path] and [shutil] do on it.

    Scope of the tree model.  A tree stands for a working directory that
    holds regular files and directories only: no symbolic link, no file
    with a second, hard-linked name, no special file.  Every node is owned
    by the build user, who is not the superuser, so the bits that decide
    an access are the owner's read and write bits; these are what [mode]
    records.  Every directory can be searched, nothing but the permission
    bits restricts an access, and the device does not fail.

    Within this scope two paths name one file only when they are the same
    path, [chmod] on a node that is there succeeds, the bits [copymode]
    hands over apply to the copy as they applied to the page, and opening
    a path writes nowhere but at that path.  Outside it the library calls
    behave differently: a destination that is a second name of the page
    makes [shutil.copy] raise [SameFileError], a destination that is a
    symbolic link is written through, a copy owned by another account
    makes [chmod] fail after the bytes were replaced, a directory that
    cannot be searched makes [exists] raise.  The statements about trees
    are statements about file systems in scope and say nothing beyond it.
    The statements over the interface [FileSystem] hold whatever the two
    calls do, device faults included. *)

From Stdlib Require Import Strings.Byte Strings.Ascii Strings.String.
From stdpp Require Import gmap strings list.

#[local] Set Warnings "-register-all".

(** ** Relative POSIX paths, as [pathlib] keeps them: a list of parts *)

Module Pathlib.

Definition path : Type := list string.

Fixpoint split_on (sep : ascii) (s : string) : list string :=
  match s with
  | EmptyString => [EmptyString]
  | String c s' =>
      if Ascii.eqb c sep then EmptyString :: split_on sep s'
      else match split_on sep s' with
           | [] => [String c EmptyString]
           | w :: ws => String c w :: ws
           end
  end.

(** [Path(s)] for a relative [s]: the parts between slashes, with empty
    parts and ["."] dropped. *)
Definition Path (s : string) : path :=
  filter (λ w, w ≠ "" ∧ w ≠ ".") (split_on "/" s).

(** [p / q] for a relative [q]. *)
Definition truediv (p q : path) : path := p ++ q.

(** [str(p)]. *)
Definition str (p : path) : string :=
  match p with
  | [] => "."
  | _ => String.concat "/" p
  end.

(** [os.path.basename(p)] of a path without a trailing slash. *)
Definition basename (p : path) : string := List.last p "".

(** [p.parent], and [os.path.dirname]. *)
Definition parent (p : path) : path := List.removelast p.

End Pathlib.
Import Pathlib.

Infix "</>" := truediv (at level 40, left associativity).

(** ** Python computations over a store: they return or raise, and keep
    the store either way *)

(** The [OSError] subclasses the library calls raise, [shutil]'s
    [SameFileError], and any other [OSError] by its errno (EIO, ENOSPC...). *)
Inductive exn : Type :=
| FileNotFoundError
| NotADirectoryError
| IsADirectoryError
| PermissionError
| SameFileError
| OSError (errno : nat).

Inductive outcome (St A : Type) : Type :=
| Returned (a : A) (s : St)
| Raised (e : exn) (s : St).
Arguments Returned {St A} a s.
Arguments Raised {St A} e s.

Definition py (St A : Type) : Type := St → outcome St A.

Definition ret {St A} (a : A) : py St A := λ s, Returned a s.

Definition bind {St A B} (c : py St A) (k : A → py St B) : py St B :=
  λ s, match c s with
       | Returned a s' => k a s'
       | Raised e s' => Raised e s'
       end.

Definition raise {St A} (e : exn) : py St A := λ s, Raised e s.

(** [try: c  except OSError as e: h e]. *)
Definition try_except {St A} (c : py St A) (h : exn → py St A) : py St A :=
  λ s, match c s with
       | Returned a s' => Returned a s'
       | Raised e s' => h e s'
       end.

(** A call that only inspects the store. *)
Definition gets {St A} (f : St → A) : py St A := λ s, Returned (f s) s.

(** The store an outcome leaves behind. *)
Definition final {St A} (o : outcome St A) : St :=
  match o with
  | Returned _ s => s
  | Raised _ s => s
  end.

Declare Scope py_scope.
Delimit Scope py_scope with py.
Notation "x <- c ;; k" := (bind c (λ x, k))
  (at level 62, c at next level, right associativity) : py_scope.
Notation "c ;;; k" := (bind c (λ _, k))
  (at level 62, right associativity) : py_scope.
#[local] Open Scope py_scope.

(** ** The publisher, over the two library calls it makes *)

Class FileSystem (FS : Type) : Type := {
  (** [p.exists()] *)
  Path_exists : path → FS → bool;
  (** [shutil.copy(src, dst)] *)
  shutil_copy : path → path → py FS path;
}.

Section Conf.
Context {FS : Type} `{FileSystem FS}.

Definition copy_julia_html_page : py FS (list string) :=
  let html_page := Path "K-matrix.html" in
  found <- gets (Path_exists html_page) ;;
  if found : bool then
    let static_path := Path "_static" in
    shutil_copy html_page (static_path </> html_page) ;;;
    ret [str (static_path </> html_page)]
  else
    ret [].

(** The module's top level, as far as the publisher's result could reach:
    the three name constants, the call on line 17, whose value is not
    bound to anything, and [html_static_path] on line 36. *)
Record conf : Type := {
  BRANCH : string;
  ORGANIZATION : string;
  REPO_NAME : string;
  html_favicon : string;
  html_static_path : list string;
}.

Definition conf_py : py FS conf :=
  let BRANCH := "main" in
  let ORGANIZATION := "mmikhasenko" in
  let REPO_NAME := "international-k-matrix-day" in
  copy_julia_html_page ;;;
  ret {| BRANCH := BRANCH;
         ORGANIZATION := ORGANIZATION;
         REPO_NAME := REPO_NAME;
         html_favicon := "_static/favicon.ico";
         html_static_path := ["_static"] |}.

End Conf.

(** ** A POSIX directory tree *)

(** The permission bits of a node as they apply to the build user: the
    owner's read and write bits, every node being the build user's own. *)
Record mode : Type := Mode { can_read : bool; can_write : bool }.

Inductive node : Type :=
| File (m : mode) (data : list byte)
| Dir (m : mode) (entries : gmap string node).

Definition st_mode (n : node) : mode :=
  match n with
  | File m _ => m
  | Dir m _ => m
  end.

Definition is_dir (n : node) : bool :=
  match n with
  | Dir _ _ => true
  | File _ _ => false
  end.

(** [os.stat(p)] from the working directory [n]: ENOENT when a part is
    missing, ENOTDIR when the walk meets a regular file before its end. *)
Fixpoint os_stat (p : path) (n : node) : exn + node :=
  match p with
  | [] => inr n
  | c :: p' =>
      match n with
      | File _ _ => inl NotADirectoryError
      | Dir _ es =>
          match es !! c with
          | None => inl FileNotFoundError
          | Some ch => os_stat p' ch
          end
      end
  end.

(** [os.path.exists] and [os.path.isdir] turn a failed [stat] into
    [False]. *)
Definition os_path_exists (p : path) (fs : node) : bool :=
  match os_stat p fs with
  | inr _ => true
  | inl _ => false
  end.

Definition os_path_isdir (p : path) (fs : node) : bool :=
  match os_stat p fs with
  | inr (Dir _ _) => true
  | _ => false
  end.

(** Replace the node at [p] by what [f] makes of it, failing as [stat]
    does when [p] does not resolve. *)
Fixpoint tree_alter (f : node → exn + node) (p : path) (n : node) : exn + node :=
  match p with
  | [] => f n
  | c :: p' =>
      match n with
      | File _ _ => inl NotADirectoryError
      | Dir m es =>
          match es !! c with
          | None => inl FileNotFoundError
          | Some ch =>
              match tree_alter f p' ch with
              | inl e => inl e
              | inr ch' => inr (Dir m (<[c := ch']> es))
              end
          end
      end
  end.

(** A system call that changes the tree or fails with it untouched. *)
Definition syscall (f : node → exn + node) : py node unit :=
  λ fs, match f fs with
        | inl e => Raised e fs
        | inr fs' => Returned () fs'
        end.

(** [open(p, "rb")] and the bytes later read from it: EACCES without read
    permission; CPython refuses a directory it managed to open. *)
Definition open_rb (p : path) : py node (list byte) :=
  λ fs, match os_stat p fs with
        | inl e => Raised e fs
        | inr (File m data) =>
            if can_read m then Returned data fs else Raised PermissionError fs
        | inr (Dir m _) =>
            if can_read m then Raised IsADirectoryError fs
            else Raised PermissionError fs
        end.

(** O_TRUNC on a node that exists. *)
Definition truncate (n : node) : exn + node :=
  match n with
  | Dir _ _ => inl IsADirectoryError
  | File m _ => if can_write m then inr (File m []) else inl PermissionError
  end.

(** The mode of a file made by [open]: 0o666 under a umask that leaves the
    owner's bits. *)
Definition new_file_mode : mode := Mode true true.

(** O_CREAT of [name] in the directory [d], where [name] is not there. *)
Definition creat (name : string) (d : node) : exn + node :=
  match d with
  | File _ _ => inl NotADirectoryError
  | Dir m es =>
      if can_write m then inr (Dir m (<[name := File new_file_mode []]> es))
      else inl PermissionError
  end.

(** [open(p, "wb")]: O_WRONLY | O_CREAT | O_TRUNC.  No part of [p] is a
    symbolic link, so the file opened is the one at [p]. *)
Definition open_wb (p : path) : py node unit :=
  λ fs, if os_path_exists p fs then syscall (tree_alter truncate p) fs
        else syscall (tree_alter (creat (basename p)) (parent p)) fs.

(** Writing [data] through the file object just opened on [p]. *)
Definition write_data (data : list byte) (n : node) : exn + node :=
  match n with
  | File m _ => inr (File m data)
  | Dir _ _ => inl IsADirectoryError
  end.

Definition fdst_write (p : path) (data : list byte) : py node unit :=
  syscall (tree_alter (write_data data) p).

(** [os.chmod(p, m)].  The build user owns the node, so the call fails
    only when [p] does not resolve. *)
Definition set_mode (m : mode) (n : node) : exn + node :=
  inr match n with
      | File _ data => File m data
      | Dir _ es => Dir m es
      end.

Definition os_chmod (p : path) (m : mode) : py node unit :=
  syscall (tree_alter (set_mode m) p).

(** ** [shutil] on the tree *)

(** [shutil._samefile]: [os.path.samefile] with its [OSError] turned into
    [False].  [samefile] compares device and inode of the two paths; in a
    tree without symbolic or hard links two paths that resolve have the
    same inode only when they are the same path. *)
Definition _samefile (src dst : path) (fs : node) : bool :=
  os_path_exists src fs && os_path_exists dst fs && bool_decide (src = dst).

(** [shutil.copyfile(src, dst)] with [follow_symlinks=True].  The handler
    is the one CPython puts around the opening of [dst]; its test for named
    pipes has nothing to find in a tree of files and directories. *)
Definition copyfile (src dst : path) : py node path :=
  same <- gets (_samefile src dst) ;;
  if same : bool then raise SameFileError
  else
    data <- open_rb src ;;
    try_except
      (open_wb dst ;;; fdst_write dst data)
      (λ e, match e with
            | IsADirectoryError =>
                there <- gets (os_path_exists dst) ;;
                if there : bool then raise e else raise FileNotFoundError
            | _ => raise e
            end) ;;;
    ret dst.

(** [shutil.copymode(src, dst)]: [chmod] of [dst] to the mode of [src].
    Page and copy have the same owner, so the owner bits of the page are
    the ones that apply to the copy. *)
Definition copymode (src dst : path) : py node unit :=
  λ fs, match os_stat src fs with
        | inl e => Raised e fs
        | inr st => os_chmod dst (st_mode st) fs
        end.

(** [shutil.copy(src, dst)]. *)
Definition copy (src dst : path) : py node path :=
  isdir <- gets (os_path_isdir dst) ;;
  let dst := if isdir : bool then dst </> [basename src] else dst in
  copyfile src dst ;;;
  copymode src dst ;;;
  ret dst.

#[export] Instance tree_fs : FileSystem node :=
  {| Path_exists := os_path_exists; shutil_copy := copy |}.

(** The publisher on the tree. *)
Abbreviation publish := (@copy_julia_html_page node tree_fs).

(** ** Vocabulary of the statements *)

Definition html_page : path := Path "K-matrix.html".
Definition static_path : path := Path "_static".
Definition destination : path := static_path </> html_page.

(** [fs'] is [fs] after one regular file was created or overwritten at
    [p], and nothing else happened. *)
Inductive file_write : path → node → node → Prop :=
| fw_create c m es m' data' :
    es !! c = None →
    file_write [c] (Dir m es) (Dir m (<[c := File m' data']> es))
| fw_overwrite c m es m0 data0 m' data' :
    es !! c = Some (File m0 data0) →
    file_write [c] (Dir m es) (Dir m (<[c := File m' data']> es))
| fw_below c p m es ch ch' :
    es !! c = Some ch →
    file_write p ch ch' →
    file_write (c :: p) (Dir m es) (Dir m (<[c := ch']> es)).

(** The tree with [x] at [p]: the node at [p] replaced, or its last part
    added to the directory that is to hold it.  The tree is returned as it
    is when that directory is not there. *)
Fixpoint plant (p : path) (x : node) (n : node) : node :=
  match p with
  | [] => x
  | c :: p' =>
      match n with
      | File _ _ => n
      | Dir m es =>
          match es !! c with
          | Some ch => Dir m (<[c := plant p' x ch]> es)
          | None =>
              match p' with
              | [] => Dir m (<[c := x]> es)
              | _ => n
              end
          end
      end
  end.

(** Where [shutil.copy] puts the file it was asked to copy to [dst]. *)
Definition landing (src dst : path) (fs : node) : path :=
  if os_path_isdir dst fs then dst </> [basename src] else dst.

(** The three ways a call ends. *)
Inductive publish_ends (fs : node) : Prop :=
| ends_absent :
    os_path_exists html_page fs = false →
    publish fs = Returned [] fs →
    publish_ends fs
| ends_raised e :
    os_path_exists html_page fs = true →
    copy html_page destination fs = Raised e fs →
    publish fs = Raised e fs →
    publish_ends fs
| ends_copied m data q c mq es :
    os_stat html_page fs = inr (File m data) →
    can_read m = true →
    landing html_page destination fs = q ++ [c] →
    os_stat q fs = inr (Dir mq es) →
    file_write (q ++ [c]) fs (plant (q ++ [c]) (File m data) fs) →
    publish fs = Returned [str destination] (plant (q ++ [c]) (File m data) fs) →
    publish_ends fs.

(** What a call returns or raises, without the tree it leaves. *)
Definition result {St A : Type} (o : outcome St A) : exn + A :=
  match o with
  | Returned a _ => inr a
  | Raised e _ => inl e
  end.

(** [open(d / name, "wb")] as decided by [stat] of the directory [d] that
    is to hold the file: [None] when the file is opened. *)
Definition refusal (name : string) (d : exn + node) : option exn :=
  match d with
  | inl e => Some e
  | inr (File _ _) => Some NotADirectoryError
  | inr (Dir m es) =>
      match es !! name with
      | None => if can_write m then None else Some PermissionError
      | Some (File m0 _) => if can_write m0 then None else Some PermissionError
      | Some (Dir _ _) => Some IsADirectoryError
      end
  end.

(** The directory that is to hold the copy, from [stat] of [_static]:
    [_static], or [_static/K-matrix.html] when that is a directory. *)
Definition holder (static : exn + node) : exn + node :=
  match static with
  | inr (Dir _ es) =>
      match es !! "K-matrix.html" with
      | Some (Dir mk ek) => inr (Dir mk ek)
      | _ => static
      end
  | _ => static
  end.

(** The result of the publisher as decided by [stat] of the page and of
    [_static]. *)
Definition verdict (page static : exn + node) : exn + list string :=
  match page with
  | inl _ => inr []
  | inr (Dir m _) =>
      inl (if can_read m then IsADirectoryError else PermissionError)
  | inr (File m _) =>
      if can_read m then
        match refusal "K-matrix.html" (holder static) with
        | Some e => inl e
        | None => inr ["_static/K-matrix.html"]
        end
      else inl PermissionError
  end.

(** ** Sample trees: the working directories of the two scenarios, and
    variants of the first *)

Definition rw : mode := Mode true true.
Definition ro : mode := Mode true false.
Definition page : list byte := list_byte_of_string "<html></html>".

Definition tree_of (entries : list (string * node)) : node :=
  Dir rw (list_to_map entries).

Definition scenario : node :=
  tree_of [("K-matrix.html", File rw page); ("_static", Dir rw ∅)].

Definition published : node :=
  tree_of [("K-matrix.html", File rw page);
           ("_static", Dir rw {["K-matrix.html" := File rw page]})].

Definition no_page : node := tree_of [("_static", Dir rw ∅)].

Definition no_static : node := tree_of [("K-matrix.html", File rw page)].

Definition read_only_page : node :=
  tree_of [("K-matrix.html", File ro page); ("_static", Dir rw ∅)].

Definition republished : node :=
  tree_of [("K-matrix.html", File ro page);
           ("_static", Dir rw {["K-matrix.html" := File ro page]})].

Definition static_holds_directory : node :=
  tree_of [("K-matrix.html", File rw page);
           ("_static", Dir rw {["K-matrix.html" := Dir rw ∅]})].

Definition page_is_directory : node :=
  tree_of [("K-matrix.html", Dir rw ∅); ("_static", Dir rw ∅)].

(** A disk that fails with EIO once [shutil.copy] has opened the
    destination: the failed copy leaves an empty file behind. *)
Definition EIO : nat := 5.

Definition failing_disk : FileSystem node :=
  {| Path_exists := os_path_exists;
     shutil_copy := λ src dst, open_wb dst ;;; raise (OSError EIO) |}.

Definition half_published : node :=
  tree_of [("K-matrix.html", File rw page);
           ("_static", Dir rw {["K-matrix.html" := File rw []]})].

(** ** The same calls made by the superuser *)

(** For the superuser the permission bits restrict neither reading nor
    writing; everything else is as for the build user.  A file that is
    there keeps its owner when the superuser overwrites it.  A file the
    superuser creates is the superuser's own, which a tree does not
    record: the statements about the build user's calls do not apply to
    a tree the superuser has added a file to. *)
Definition open_rb_su (p : path) : py node (list byte) :=
  λ fs, match os_stat p fs with
        | inl e => Raised e fs
        | inr (File _ data) => Returned data fs
        | inr (Dir _ _) => Raised IsADirectoryError fs
        end.

Definition truncate_su (n : node) : exn + node :=
  match n with
  | Dir _ _ => inl IsADirectoryError
  | File m _ => inr (File m [])
  end.

Definition creat_su (name : string) (d : node) : exn + node :=
  match d with
  | File _ _ => inl NotADirectoryError
  | Dir m es => inr (Dir m (<[name := File new_file_mode []]> es))
  end.

Definition open_wb_su (p : path) : py node unit :=
  λ fs, if os_path_exists p fs then syscall (tree_alter truncate_su p) fs
        else syscall (tree_alter (creat_su (basename p)) (parent p)) fs.

Definition copyfile_su (src dst : path) : py node path :=
  same <- gets (_samefile src dst) ;;
  if same : bool then raise SameFileError
  else
    data <- open_rb_su src ;;
    try_except
      (open_wb_su dst ;;; fdst_write dst data)
      (λ e, match e with
            | IsADirectoryError =>
                there <- gets (os_path_exists dst) ;;
                if there : bool then raise e else raise FileNotFoundError
            | _ => raise e
            end) ;;;
    ret dst.

Definition copy_su (src dst : path) : py node path :=
  isdir <- gets (os_path_isdir dst) ;;
  let dst := if isdir : bool then dst </> [basename src] else dst in
  copyfile_su src dst ;;;
  copymode src dst ;;;
  ret dst.

Definition superuser_fs : FileSystem node :=
  {| Path_exists := os_path_exists; shutil_copy := copy_su |}.

(** ** Building again *)

(** The outcome of the last of [n + 1] successive calls, each on the tree
    the one before left: every build loads the module anew, and so calls
    the publisher anew.  The first call that raises ends the run. *)
Fixpoint rebuild (n : nat) : py node (list string) :=
  match n with
  | 0 => publish
  | S n' => publish ;;; rebuild n'
  end.

(** * The tree *)

Lemma os_stat_app (p q : path) (fs : node) :
  os_stat (p ++ q) fs =
  match os_stat p fs with
  | inr x => os_stat q x
  | inl e => inl e
  end.
Proof.
  revert fs; induction p as [|c p IH]; intros fs; [done|].
  destruct fs as [m d|m es]; simpl; [done|].
  destruct (es !! c); [apply IH|done].
Qed.

Lemma tree_alter_missing (f : node → exn + node) (p : path) (fs : node) (e : exn) :
  os_stat p fs = inl e → tree_alter f p fs = inl e.
Proof.
  revert fs; induction p as [|c p IH]; intros fs; simpl; [done|].
  destruct fs as [m d|m es]; [done|].
  destruct (es !! c) as [ch|]; [|done].
  intros Hst. by rewrite (IH _ Hst).
Qed.

Lemma tree_alter_fail (f : node → exn + node) (p : path) (fs x : node) (e : exn) :
  os_stat p fs = inr x → f x = inl e → tree_alter f p fs = inl e.
Proof.
  revert fs; induction p as [|c p IH]; intros fs; simpl.
  - by intros [= ->].
  - destruct fs as [m d|m es]; [done|].
    destruct (es !! c) as [ch|]; [|done].
    intros Hst Hf. by rewrite (IH _ Hst Hf).
Qed.

Lemma tree_alter_plant (f : node → exn + node) (p : path) (fs x x' : node) :
  os_stat p fs = inr x → f x = inr x' → tree_alter f p fs = inr (plant p x' fs).
Proof.
  revert fs; induction p as [|c p IH]; intros fs; simpl.
  - by intros [= ->].
  - destruct fs as [m d|m es]; [done|].
    destruct (es !! c) as [ch|]; [|done].
    intros Hst Hf. by rewrite (IH _ Hst Hf).
Qed.

Lemma os_stat_plant (p : path) (fs x0 x : node) :
  os_stat p fs = inr x0 → os_stat p (plant p x fs) = inr x.
Proof.
  revert fs; induction p as [|c p IH]; intros fs; simpl; [done|].
  destruct fs as [m d|m es]; [done|].
  destruct (es !! c) as [ch|] eqn:Hc; [|done].
  intros Hst. simpl. rewrite lookup_insert_eq. by apply IH.
Qed.

Lemma plant_plant (p : path) (fs x0 x y : node) :
  os_stat p fs = inr x0 → plant p y (plant p x fs) = plant p y fs.
Proof.
  revert fs; induction p as [|c p IH]; intros fs; simpl; [done|].
  destruct fs as [m d|m es]; [done|].
  destruct (es !! c) as [ch|] eqn:Hc; [|done].
  intros Hst. simpl. rewrite lookup_insert_eq, insert_insert_eq.
  by rewrite (IH _ Hst).
Qed.

Lemma plant_app (q r : path) (fs y x : node) :
  os_stat q fs = inr y → plant (q ++ r) x fs = plant q (plant r x y) fs.
Proof.
  revert fs; induction q as [|c q IH]; intros fs; simpl.
  - by intros [= ->].
  - destruct fs as [m d|m es]; [done|].
    destruct (es !! c) as [ch|] eqn:Hc; [|done].
    intros Hst. by rewrite (IH _ Hst).
Qed.

(** ** What a single file write leaves alone *)

Lemma file_write_plant_file (p : path) (fs : node) (m0 m : mode)
    (data0 data : list byte) :
  p ≠ [] → os_stat p fs = inr (File m0 data0) →
  file_write p fs (plant p (File m data) fs).
Proof.
  revert fs; induction p as [|c p IH]; intros fs Hp; [done|]; simpl.
  destruct fs as [m1 d1|m1 es]; [done|].
  destruct (es !! c) as [ch|] eqn:Hc; [|done].
  destruct p as [|c' p].
  - intros [= ->]. simpl. by eapply fw_overwrite.
  - intros Hst. eapply fw_below; [exact Hc|]. by apply IH.
Qed.

Lemma file_write_plant_new (q : path) (c : string) (fs : node) (mq m : mode)
    (es : gmap string node) (data : list byte) :
  os_stat q fs = inr (Dir mq es) → es !! c = None →
  file_write (q ++ [c]) fs (plant (q ++ [c]) (File m data) fs).
Proof.
  revert fs; induction q as [|c0 q IH]; intros fs; simpl.
  - intros [= ->] Hc. rewrite Hc. by apply fw_create.
  - destruct fs as [m1 d1|m1 es1]; [done|].
    destruct (es1 !! c0) as [ch|] eqn:Hc0; [|done].
    intros Hst Hc. eapply fw_below; [exact Hc0|]. by eapply IH.
Qed.

Lemma file_write_keeps (p : path) (fs fs' : node) :
  file_write p fs fs' →
  ∀ (q : path) (x : node), os_stat q fs = inr x →
    ∃ x', os_stat q fs' = inr x' ∧ is_dir x' = is_dir x.
Proof.
  induction 1 as [c m es m' d' Hc|c m es m0 d0 m' d' Hc|c p m es ch ch' Hc Hw IH];
    intros [|c0 q] x; simpl;
    try (intros [= <-]; by eexists).
  - destruct (decide (c0 = c)) as [->|Hne]; [by rewrite Hc|].
    rewrite lookup_insert_ne by done. destruct (es !! c0); [eauto|done].
  - destruct (decide (c0 = c)) as [->|Hne].
    + rewrite Hc, lookup_insert_eq. destruct q; [|done].
      simpl. intros [= <-]. by eexists.
    + rewrite lookup_insert_ne by done. destruct (es !! c0); [eauto|done].
  - destruct (decide (c0 = c)) as [->|Hne].
    + rewrite Hc, lookup_insert_eq. apply IH.
    + rewrite lookup_insert_ne by done. destruct (es !! c0); [eauto|done].
Qed.

Lemma file_write_frame (p : path) (fs fs' : node) :
  file_write p fs fs' →
  ∀ q : path, ¬ q `prefix_of` p → ¬ p `prefix_of` q →
    os_stat q fs' = os_stat q fs.
Proof.
  induction 1 as [c m es m' d' Hc|c m es m0 d0 m' d' Hc|c p m es ch ch' Hc Hw IH];
    intros [|c0 q] Hqp Hpq; simpl;
    try (exfalso; apply Hqp, prefix_nil).
  - destruct (decide (c0 = c)) as [->|Hne].
    + exfalso. apply Hpq. apply prefix_cons, prefix_nil.
    + by rewrite lookup_insert_ne.
  - destruct (decide (c0 = c)) as [->|Hne].
    + exfalso. apply Hpq. apply prefix_cons, prefix_nil.
    + by rewrite lookup_insert_ne.
  - destruct (decide (c0 = c)) as [->|Hne].
    + rewrite Hc, lookup_insert_eq. apply IH.
      * intros Hpre. by apply Hqp, prefix_cons.
      * intros Hpre. by apply Hpq, prefix_cons.
    + by rewrite lookup_insert_ne.
Qed.

Lemma os_stat_plant_new (q : path) (c : string) (fs x : node) (m : mode)
    (es : gmap string node) :
  os_stat q fs = inr (Dir m es) →
  os_stat (q ++ [c]) (plant (q ++ [c]) x fs) = inr x.
Proof.
  intros Hq. rewrite (plant_app _ _ _ _ _ Hq), os_stat_app.
  rewrite (os_stat_plant _ _ _ _ Hq). simpl.
  destruct (es !! c); simpl; by rewrite lookup_insert_eq.
Qed.

Lemma plant_plant_new (q : path) (c : string) (fs x y : node) (m : mode)
    (es : gmap string node) :
  os_stat q fs = inr (Dir m es) →
  plant (q ++ [c]) y (plant (q ++ [c]) x fs) = plant (q ++ [c]) y fs.
Proof.
  intros Hq. rewrite (plant_app q [c] fs _ x Hq).
  rewrite (plant_app q [c] _ _ y (os_stat_plant _ _ _ _ Hq)).
  rewrite (plant_plant _ _ _ _ _ Hq), (plant_app q [c] fs _ y Hq).
  f_equal. simpl.
  destruct (es !! c); simpl; by rewrite lookup_insert_eq, insert_insert_eq.
Qed.

Lemma tree_alter_inl (f : node → exn + node) (p : path) (fs : node) (e : exn) :
  tree_alter f p fs = inl e →
  os_stat p fs = inl e ∨ ∃ x, os_stat p fs = inr x ∧ f x = inl e.
Proof.
  revert fs; induction p as [|c p IH]; intros fs; simpl; [eauto|].
  destruct fs as [m d|m es]; [eauto|].
  destruct (es !! c) as [ch|]; [|eauto].
  destruct (tree_alter f p ch) as [e'|ch'] eqn:Hch; [|done].
  intros [= ->]. by apply IH.
Qed.

(** ** The system calls *)

Lemma syscall_raised (f : node → exn + node) (fs fs' : node) (e : exn) :
  syscall f fs = Raised e fs' → fs' = fs.
Proof. unfold syscall. destruct (f fs); congruence. Qed.

Lemma open_wb_raised (p : path) (fs fs' : node) (e : exn) :
  open_wb p fs = Raised e fs' → fs' = fs.
Proof.
  unfold open_wb. destruct (os_path_exists p fs); apply syscall_raised.
Qed.

Lemma open_wb_truncates (p : path) (fs : node) (m0 : mode) (data0 : list byte) :
  os_stat p fs = inr (File m0 data0) → can_write m0 = true →
  open_wb p fs = Returned () (plant p (File m0 []) fs).
Proof.
  intros Hp Hw. unfold open_wb, os_path_exists, syscall. rewrite Hp.
  erewrite tree_alter_plant; [done..|]. simpl. by rewrite Hw.
Qed.

Lemma open_wb_read_only (p : path) (fs : node) (m0 : mode) (data0 : list byte) :
  os_stat p fs = inr (File m0 data0) → can_write m0 = false →
  open_wb p fs = Raised PermissionError fs.
Proof.
  intros Hp Hw. unfold open_wb, os_path_exists, syscall. rewrite Hp.
  erewrite tree_alter_fail; [done..|]. simpl. by rewrite Hw.
Qed.

Lemma open_wb_directory (p : path) (fs : node) (m : mode) (es : gmap string node) :
  os_stat p fs = inr (Dir m es) → open_wb p fs = Raised IsADirectoryError fs.
Proof.
  intros Hp. unfold open_wb, os_path_exists, syscall. rewrite Hp.
  by erewrite tree_alter_fail.
Qed.

Lemma open_wb_creates (q : path) (c : string) (fs : node) (m : mode)
    (es : gmap string node) :
  os_stat q fs = inr (Dir m es) → es !! c = None → can_write m = true →
  open_wb (q ++ [c]) fs = Returned () (plant (q ++ [c]) (File new_file_mode []) fs).
Proof.
  intros Hq Hc Hw. unfold open_wb, os_path_exists, syscall, parent, basename.
  rewrite os_stat_app, Hq. simpl. rewrite Hc.
  rewrite removelast_last, last_last.
  erewrite tree_alter_plant; [|done|simpl; by rewrite Hw].
  rewrite (plant_app _ _ _ _ _ Hq). simpl. by rewrite Hc.
Qed.

Lemma open_wb_locked (q : path) (c : string) (fs : node) (m : mode)
    (es : gmap string node) :
  os_stat q fs = inr (Dir m es) → es !! c = None → can_write m = false →
  open_wb (q ++ [c]) fs = Raised PermissionError fs.
Proof.
  intros Hq Hc Hw. unfold open_wb, os_path_exists, syscall, parent, basename.
  rewrite os_stat_app, Hq. simpl. rewrite Hc.
  rewrite removelast_last, last_last.
  erewrite tree_alter_fail; [done..|]. simpl. by rewrite Hw.
Qed.

Lemma open_wb_no_directory (q : path) (c : string) (fs : node) (e : exn) :
  os_stat q fs = inl e → open_wb (q ++ [c]) fs = Raised e fs.
Proof.
  intros Hq. unfold open_wb, os_path_exists, syscall, parent, basename.
  rewrite os_stat_app, Hq.
  rewrite removelast_last, last_last.
  by erewrite tree_alter_missing.
Qed.

Lemma open_wb_under_file (q : path) (c : string) (fs : node) (m : mode)
    (data : list byte) :
  os_stat q fs = inr (File m data) →
  open_wb (q ++ [c]) fs = Raised NotADirectoryError fs.
Proof.
  intros Hq. unfold open_wb, os_path_exists, syscall, parent, basename.
  rewrite os_stat_app, Hq. simpl.
  rewrite removelast_last, last_last.
  by erewrite tree_alter_fail.
Qed.

(** [open(p, "wb")] raises [IsADirectoryError] only on a directory that is
    there, so the handler in [copyfile] passes it on. *)
Lemma open_wb_isdir_exists (p : path) (fs fs' : node) :
  open_wb p fs = Raised IsADirectoryError fs' → os_path_exists p fs = true.
Proof.
  unfold open_wb. destruct (os_path_exists p fs) eqn:Hex; [done|].
  unfold syscall.
  destruct (tree_alter _ _ fs) as [e|fs1] eqn:Halt; [|done].
  intros [= -> _]. apply tree_alter_inl in Halt as [Hst|(x & Hst & Hx)].
  - exfalso. clear Hex. revert fs Hst.
    induction (parent p) as [|c q IH]; intros fs; simpl; [done|].
    destruct fs as [m d|m es]; [done|].
    destruct (es !! c); [apply IH|done].
  - destruct x as [m d|m es]; simpl in Hx; [done|].
    by destruct (can_write m).
Qed.

Lemma open_wb_returned (q : path) (c : string) (fs fs1 : node) (u : unit) :
  open_wb (q ++ [c]) fs = Returned u fs1 →
  ∃ mq es m',
    os_stat q fs = inr (Dir mq es) ∧
    fs1 = plant (q ++ [c]) (File m' []) fs ∧
    (es !! c = None ∧ can_write mq = true ∨
     ∃ data0, es !! c = Some (File m' data0) ∧ can_write m' = true).
Proof.
  destruct (os_stat q fs) as [e|[m d|mq es]] eqn:Hq.
  - by rewrite (open_wb_no_directory _ _ _ _ Hq).
  - by rewrite (open_wb_under_file _ _ _ _ _ Hq).
  - destruct (es !! c) as [[m0 d0|m0 es0]|] eqn:Hc.
    + assert (os_stat (q ++ [c]) fs = inr (File m0 d0)) as Hp
        by (rewrite os_stat_app, Hq; simpl; by rewrite Hc).
      destruct (can_write m0) eqn:Hw.
      * rewrite (open_wb_truncates _ _ _ _ Hp Hw). intros [= <-].
        exists mq, es, m0. eauto 10.
      * by rewrite (open_wb_read_only _ _ _ _ Hp Hw).
    + assert (os_stat (q ++ [c]) fs = inr (Dir m0 es0)) as Hp
        by (rewrite os_stat_app, Hq; simpl; by rewrite Hc).
      by rewrite (open_wb_directory _ _ _ _ Hp).
    + destruct (can_write mq) eqn:Hw.
      * rewrite (open_wb_creates _ _ _ _ _ Hq Hc Hw). intros [= <-].
        exists mq, es, new_file_mode. eauto 10.
      * by rewrite (open_wb_locked _ _ _ _ _ Hq Hc Hw).
Qed.

Lemma file_write_plant (q : path) (c : string) (fs : node) (mq m : mode)
    (es : gmap string node) (data : list byte) :
  os_stat q fs = inr (Dir mq es) →
  (es !! c = None ∨ ∃ m0 data0, es !! c = Some (File m0 data0)) →
  file_write (q ++ [c]) fs (plant (q ++ [c]) (File m data) fs).
Proof.
  intros Hq [Hc|(m0 & d0 & Hc)].
  - by eapply file_write_plant_new.
  - eapply file_write_plant_file; [by destruct q|].
    rewrite os_stat_app, Hq. simpl. by rewrite Hc.
Qed.

(** ** [shutil.copy] *)

Lemma open_rb_raised (p : path) (fs fs' : node) (e : exn) :
  open_rb p fs = Raised e fs' → fs' = fs.
Proof.
  unfold open_rb.
  destruct (os_stat p fs) as [?|[m ?|m ?]]; try destruct (can_read m); congruence.
Qed.

Lemma open_rb_returned (p : path) (fs fs' : node) (data : list byte) :
  open_rb p fs = Returned data fs' →
  fs' = fs ∧ ∃ m, os_stat p fs = inr (File m data) ∧ can_read m = true.
Proof.
  unfold open_rb.
  destruct (os_stat p fs) as [?|[m ?|m ?]]; try destruct (can_read m) eqn:Hr;
    try congruence.
  intros [= <- <-]. eauto.
Qed.

Lemma samefile_distinct (src dst : path) (fs : node) :
  src ≠ dst → _samefile src dst fs = false.
Proof.
  intros Hne. unfold _samefile.
  by rewrite bool_decide_eq_false_2, andb_false_r.
Qed.

Lemma copy_source_fails (src dst : path) (fs fs' : node) (e : exn) :
  src ≠ landing src dst fs →
  open_rb src fs = Raised e fs' →
  copy src dst fs = Raised e fs.
Proof.
  intros Hne Hrb. pose proof (open_rb_raised _ _ _ _ Hrb) as ->.
  unfold copy, bind, gets, copyfile. fold (landing src dst fs).
  unfold bind, gets. rewrite (samefile_distinct _ _ _ Hne).
  by rewrite Hrb.
Qed.

Lemma copy_target_fails (src dst : path) (fs fs0 fs' : node) (data : list byte)
    (e : exn) :
  src ≠ landing src dst fs →
  open_rb src fs = Returned data fs0 →
  open_wb (landing src dst fs) fs = Raised e fs' →
  copy src dst fs = Raised e fs.
Proof.
  intros Hne Hrb Hwb.
  destruct (open_rb_returned _ _ _ _ Hrb) as [-> _].
  pose proof (open_wb_raised _ _ _ _ Hwb) as ->.
  unfold copy, bind, gets, copyfile. fold (landing src dst fs).
  unfold bind, gets, try_except. rewrite (samefile_distinct _ _ _ Hne).
  rewrite Hrb, Hwb.
  destruct e; try done.
  by rewrite (open_wb_isdir_exists _ _ _ Hwb).
Qed.

Lemma copy_succeeds (src dst q : path) (c : string) (fs fs1 : node) (m : mode)
    (data : list byte) (u : unit) :
  landing src dst fs = q ++ [c] →
  ¬ src `prefix_of` q ++ [c] → ¬ q ++ [c] `prefix_of` src →
  os_stat src fs = inr (File m data) → can_read m = true →
  open_wb (q ++ [c]) fs = Returned u fs1 →
  copy src dst fs = Returned (q ++ [c]) (plant (q ++ [c]) (File m data) fs) ∧
  file_write (q ++ [c]) fs (plant (q ++ [c]) (File m data) fs).
Proof.
  intros Hland Hsd Hds Hsrc Hr Hwb.
  destruct (open_wb_returned _ _ _ _ _ Hwb) as (mq & es & m' & Hq & -> & Hc).
  assert (es !! c = None ∨ ∃ m0 data0, es !! c = Some (File m0 data0)) as Hc'
    by (destruct Hc as [[? _]|(? & ? & _)]; eauto).
  assert (src ≠ q ++ [c]) as Hne by (intros ->; by apply Hsd).
  split; [|by eapply file_write_plant].
  unfold copy, bind, gets, copyfile. fold (landing src dst fs). rewrite Hland.
  unfold bind, gets, try_except. rewrite (samefile_distinct _ _ _ Hne).
  unfold open_rb. rewrite Hsrc, Hr, Hwb.
  unfold fdst_write, syscall.
  erewrite tree_alter_plant; [|by eapply os_stat_plant_new|done].
  rewrite (plant_plant_new _ _ _ _ _ _ _ Hq).
  unfold ret, copymode.
  rewrite (file_write_frame _ _ _ (file_write_plant _ _ _ _ m' _ data Hq Hc') _ Hsd Hds).
  rewrite Hsrc. unfold os_chmod, syscall. simpl.
  erewrite tree_alter_plant; [|by eapply os_stat_plant_new|done].
  by rewrite (plant_plant_new _ _ _ _ _ _ _ Hq).
Qed.

(** * The publisher on the tree *)

Lemma html_page_parts : html_page = ["K-matrix.html"].
Proof. reflexivity. Qed.

Lemma publish_absent (fs : node) :
  os_path_exists html_page fs = false → publish fs = Returned [] fs.
Proof.
  intros Hex. unfold copy_julia_html_page, bind, gets. simpl.
  fold html_page. by rewrite Hex.
Qed.

Lemma publish_present (fs : node) :
  os_path_exists html_page fs = true →
  publish fs =
  match copy html_page destination fs with
  | Returned _ fs' => Returned [str destination] fs'
  | Raised e fs' => Raised e fs'
  end.
Proof.
  intros Hex. unfold copy_julia_html_page, bind, gets. simpl.
  fold html_page. fold static_path. fold destination. by rewrite Hex.
Qed.

(** The file lands at the destination, or inside it when the destination
    is a directory. *)
Lemma landing_publish (fs : node) :
  landing html_page destination fs =
  ["_static"] ++ ["K-matrix.html"] ∧ os_path_isdir destination fs = false ∨
  landing html_page destination fs =
  ["_static"; "K-matrix.html"] ++ ["K-matrix.html"] ∧
  os_path_isdir destination fs = true.
Proof.
  unfold landing. destruct (os_path_isdir destination fs); [right|left]; done.
Qed.

Lemma html_page_apart (p : path) :
  ¬ html_page `prefix_of` "_static" :: p ∧ ¬ "_static" :: p `prefix_of` html_page.
Proof.
  rewrite html_page_parts. split; intros Hpre.
  - by apply prefix_cons_inv_1 in Hpre.
  - by apply prefix_cons_inv_1 in Hpre.
Qed.

Lemma landing_apart (fs : node) :
  ¬ html_page `prefix_of` landing html_page destination fs ∧
  ¬ landing html_page destination fs `prefix_of` html_page.
Proof.
  destruct (landing_publish fs) as [[-> _]|[-> _]]; apply html_page_apart.
Qed.

Lemma html_page_not_landing (fs : node) :
  html_page ≠ landing html_page destination fs.
Proof. by destruct (landing_publish fs) as [[-> _]|[-> _]]. Qed.

Lemma publish_outcome (fs : node) : publish_ends fs.
Proof.
  destruct (os_path_exists html_page fs) eqn:Hex;
    [|by apply ends_absent, publish_absent].
  pose proof (publish_present fs Hex) as Hpub.
  pose proof (html_page_not_landing fs) as Hne.
  destruct (open_rb html_page fs) as [data fs0|e fs0] eqn:Hrb.
  - destruct (open_rb_returned _ _ _ _ Hrb) as (-> & m & Hsrc & Hr).
    destruct (open_wb (landing html_page destination fs) fs) as [u fs1|e fs1] eqn:Hwb.
    + destruct (landing_apart fs) as [Hsd Hds].
      assert (∃ q c, landing html_page destination fs = q ++ [c]) as (q & c & Hland)
        by (destruct (landing_publish fs) as [[-> _]|[-> _]]; eauto).
      rewrite Hland in Hwb, Hsd, Hds.
      destruct (copy_succeeds _ _ _ _ _ _ _ _ _ Hland Hsd Hds Hsrc Hr Hwb)
        as [Hcopy Hfw].
      destruct (open_wb_returned _ _ _ _ _ Hwb) as (mq & es & _ & Hq & _).
      rewrite Hcopy in Hpub. by eapply ends_copied.
    + pose proof (copy_target_fails _ _ _ _ _ _ _ Hne Hrb Hwb) as Hcopy.
      rewrite Hcopy in Hpub. by eapply ends_raised.
  - pose proof (copy_source_fails _ _ _ _ _ Hne Hrb) as Hcopy.
    rewrite Hcopy in Hpub. by eapply ends_raised.
Qed.

Lemma os_stat_destination (fs : node) (ms : mode) (es : gmap string node) :
  os_stat static_path fs = inr (Dir ms es) →
  os_stat destination fs =
  match es !! "K-matrix.html" with
  | Some x => inr x
  | None => inl FileNotFoundError
  end.
Proof.
  intros Hs. change destination with (static_path ++ ["K-matrix.html"]).
  rewrite os_stat_app, Hs. simpl. by destruct (es !! "K-matrix.html").
Qed.

(** The copy goes through when the page can be read and its place under
    [_static] is free in a writable directory, or taken by a file that can
    be written. *)
Lemma publish_copies (fs : node) (m ms : mode) (data : list byte)
    (es : gmap string node) :
  os_stat html_page fs = inr (File m data) → can_read m = true →
  os_stat static_path fs = inr (Dir ms es) →
  (es !! "K-matrix.html" = None ∧ can_write ms = true ∨
   ∃ m0 data0, es !! "K-matrix.html" = Some (File m0 data0) ∧ can_write m0 = true) →
  publish fs = Returned [str destination] (plant destination (File m data) fs) ∧
  file_write destination fs (plant destination (File m data) fs).
Proof.
  intros Hsrc Hr Hs Hc.
  pose proof (os_stat_destination _ _ _ Hs) as Hd.
  assert (landing html_page destination fs = static_path ++ ["K-matrix.html"])
    as Hland.
  { unfold landing, os_path_isdir. rewrite Hd.
    by destruct Hc as [[-> _]|(m0 & d0 & -> & _)]. }
  assert (∃ fs1, open_wb (static_path ++ ["K-matrix.html"]) fs = Returned () fs1)
    as [fs1 Hwb].
  { destruct Hc as [[Hc Hw]|(m0 & d0 & Hc & Hw)].
    - eexists. by apply (open_wb_creates _ _ _ _ _ Hs Hc Hw).
    - rewrite Hc in Hd. eexists. by apply (open_wb_truncates _ _ _ _ Hd Hw). }
  destruct (html_page_apart ["K-matrix.html"]) as [Hsd Hds].
  destruct (copy_succeeds _ _ _ _ _ _ _ _ _ Hland Hsd Hds Hsrc Hr Hwb)
    as [Hcopy Hfw].
  split; [|done].
  rewrite publish_present by (unfold os_path_exists; by rewrite Hsrc).
  by rewrite Hcopy.
Qed.

Lemma os_stat_planted (fs x : node) (ms : mode) (es : gmap string node) :
  os_stat static_path fs = inr (Dir ms es) →
  os_stat destination (plant destination x fs) = inr x ∧
  os_stat static_path (plant destination x fs) =
    inr (Dir ms (<["K-matrix.html" := x]> es)).
Proof.
  intros Hs. change destination with (static_path ++ ["K-matrix.html"]).
  split; [by eapply os_stat_plant_new|].
  rewrite (plant_app _ _ _ _ _ Hs), (os_stat_plant _ _ _ _ Hs). simpl.
  by destruct (es !! "K-matrix.html").
Qed.

(** A call that returned is repeated with the same result and no further
    change, provided the page can be written: the copy carries the page's
    permission bits over to the file it leaves. *)
Lemma publish_again (fs fs1 : node) (l : list string) :
  publish fs = Returned l fs1 →
  (∀ m data, os_stat html_page fs = inr (File m data) → can_write m = true) →
  publish fs1 = Returned l fs1.
Proof.
  intros Hpub Hw.
  destruct (publish_outcome fs)
    as [Hex Hp|e _ _ Hp|m data q c mq es Hsrc Hr Hland Hq Hfw Hp];
    rewrite Hp in Hpub; [| done |].
  - by injection Hpub as <- <-.
  - injection Hpub as <- <-. specialize (Hw _ _ Hsrc).
    destruct (landing_apart fs) as [Hsd Hds]. rewrite Hland in Hsd, Hds.
    pose proof (os_stat_plant_new q c fs (File m data) _ _ Hq) as Hd1.
    pose proof (file_write_frame _ _ _ Hfw _ Hsd Hds) as Hsrc1.
    rewrite Hsrc in Hsrc1.
    assert (landing html_page destination (plant (q ++ [c]) (File m data) fs)
            = q ++ [c]) as Hland1.
    { unfold landing, os_path_isdir.
      destruct (landing_publish fs) as [[Heq Hdir]|[Heq Hdir]];
        rewrite Heq in Hland.
      - change (["_static"] ++ ["K-matrix.html"]) with destination in Hland.
        by rewrite Hland, Hd1.
      - unfold os_path_isdir in Hdir.
        destruct (os_stat destination fs) as [|x] eqn:Hdst; [done|].
        destruct (file_write_keeps _ _ _ Hfw _ _ Hdst) as (x' & -> & Hk).
        destruct x; [done|]. by destruct x'. }
    destruct (copy_succeeds _ _ _ _ _ _ _ _ _ Hland1 Hsd Hds Hsrc1 Hr
                (open_wb_truncates _ _ _ _ Hd1 Hw)) as [Hcopy _].
    rewrite publish_present by (unfold os_path_exists; by rewrite Hsrc1).
    rewrite Hcopy. by rewrite (plant_plant_new _ _ _ _ _ _ _ Hq).
Qed.

(** ** The result, read off the two [stat]s *)

Lemma open_wb_refusal (q : path) (c : string) (fs : node) :
  match refusal c (os_stat q fs) with
  | Some e => open_wb (q ++ [c]) fs = Raised e fs
  | None => ∃ m', open_wb (q ++ [c]) fs =
                  Returned () (plant (q ++ [c]) (File m' []) fs)
  end.
Proof.
  destruct (os_stat q fs) as [e|[m d|mq es]] eqn:Hq; simpl.
  - by apply open_wb_no_directory.
  - by eapply open_wb_under_file.
  - destruct (es !! c) as [[m0 d0|m0 es0]|] eqn:Hc.
    + assert (os_stat (q ++ [c]) fs = inr (File m0 d0)) as Hp
        by (rewrite os_stat_app, Hq; simpl; by rewrite Hc).
      destruct (can_write m0) eqn:Hw.
      * eexists. by eapply open_wb_truncates.
      * by eapply open_wb_read_only.
    + eapply open_wb_directory.
      rewrite os_stat_app, Hq. simpl. by rewrite Hc.
    + destruct (can_write mq) eqn:Hw.
      * eexists. by eapply open_wb_creates.
      * by eapply open_wb_locked.
Qed.

Lemma publish_source_fails (fs fs' : node) (e : exn) :
  os_path_exists html_page fs = true →
  open_rb html_page fs = Raised e fs' →
  publish fs = Raised e fs.
Proof.
  intros Hex Hrb. rewrite (publish_present _ Hex).
  by rewrite (copy_source_fails _ _ _ _ _ (html_page_not_landing fs) Hrb).
Qed.

(** The directory that is to hold the copy. *)
Lemma landing_holder (fs : node) :
  ∃ q, landing html_page destination fs = q ++ ["K-matrix.html"] ∧
       os_stat q fs = holder (os_stat static_path fs).
Proof.
  unfold landing, os_path_isdir.
  change destination with (static_path ++ ["K-matrix.html"]).
  rewrite os_stat_app.
  destruct (os_stat static_path fs) as [e|[ms d|ms es]] eqn:Hs; simpl;
    try (exists static_path; by rewrite Hs).
  destruct (es !! "K-matrix.html") as [[m0 d0|mk ek]|] eqn:Hc;
    try (exists static_path; by rewrite Hs).
  exists (static_path ++ ["K-matrix.html"]). split; [done|].
  rewrite os_stat_app, Hs. simpl. by rewrite Hc.
Qed.

Lemma publish_verdict (fs : node) :
  result (publish fs) = verdict (os_stat html_page fs) (os_stat static_path fs).
Proof.
  destruct (os_stat html_page fs) as [e|[m data|m es]] eqn:Hsrc; unfold verdict.
  - rewrite publish_absent; [done|]. unfold os_path_exists. by rewrite Hsrc.
  - assert (os_path_exists html_page fs = true) as Hex
      by (unfold os_path_exists; by rewrite Hsrc).
    destruct (can_read m) eqn:Hr.
    + destruct (landing_holder fs) as (q & Hland & Hq). rewrite <- Hq.
      pose proof (open_wb_refusal q "K-matrix.html" fs) as Hwb.
      destruct (landing_apart fs) as [Hsd Hds]. rewrite Hland in Hsd, Hds.
      rewrite (publish_present _ Hex).
      destruct (refusal "K-matrix.html" (os_stat q fs)) as [e|].
      * rewrite <- Hland in Hwb.
        erewrite copy_target_fails;
          [done|apply html_page_not_landing| |exact Hwb].
        unfold open_rb. by rewrite Hsrc, Hr.
      * destruct Hwb as [m' Hwb].
        destruct (copy_succeeds _ _ _ _ _ _ _ _ _ Hland Hsd Hds Hsrc Hr Hwb)
          as [-> _]. done.
    + erewrite publish_source_fails; [done..|].
      unfold open_rb. by rewrite Hsrc, Hr.
  - assert (os_path_exists html_page fs = true) as Hex
      by (unfold os_path_exists; by rewrite Hsrc).
    destruct (can_read m) eqn:Hr.
    + erewrite publish_source_fails; [done..|].
      unfold open_rb. by rewrite Hsrc, Hr.
    + erewrite publish_source_fails; [done..|].
      unfold open_rb. by rewrite Hsrc, Hr.
Qed.

(** A call that raises leaves the tree as it found it. *)
Lemma publish_raised (fs fs' : node) (e : exn) :
  publish fs = Raised e fs' → fs' = fs.
Proof.
  intros Hpub.
  destruct (publish_outcome fs) as [_ Hp|e' _ _ Hp|m data q c mq es _ _ _ _ _ Hp];
    rewrite Hp in Hpub; congruence.
Qed.

Lemma file_write_spot (p : path) (fs fs' : node) :
  file_write p fs fs' → ∀ x, os_stat p fs = inr x → is_dir x = false.
Proof.
  induction 1 as [c m es m' d' Hc|c m es m0 d0 m' d' Hc|c p m es ch ch' Hc Hw IH];
    intros x; simpl; rewrite Hc; [done| |apply IH].
  by intros [= <-].
Qed.

(** * The claims *)

(** C1, amended.  On a tree in scope (regular files and directories only,
    no links, one owner who is not the superuser, searchable directories,
    no device fault): when [K-matrix.html] is a regular file
    the build user can read, [_static] is a directory the build user can
    write to, and [_static/K-matrix.html] is absent or a regular file the
    build user can write, the publisher returns the one-element list
    ["_static/K-matrix.html"], and afterwards the file at that path has the
    bytes (and permission bits) of the page, which is itself unchanged. *)
Theorem page_is_copied (fs : node) (m ms : mode) (data : list byte)
    (es : gmap string node) :
  os_stat html_page fs = inr (File m data) → can_read m = true →
  os_stat static_path fs = inr (Dir ms es) → can_write ms = true →
  (es !! "K-matrix.html" = None ∨
   ∃ m0 data0, es !! "K-matrix.html" = Some (File m0 data0) ∧ can_write m0 = true) →
  ∃ fs', copy_julia_html_page fs = Returned ["_static/K-matrix.html"] fs' ∧
         os_stat destination fs' = inr (File m data) ∧
         os_stat html_page fs' = inr (File m data).
Proof.
  intros Hsrc Hr Hs Hw Hc.
  destruct (publish_copies fs m ms data es Hsrc Hr Hs) as [Hpub Hfw].
  { destruct Hc as [Hc|Hc]; [left|right]; done. }
  eexists. split; [exact Hpub|]. split.
  - by apply (os_stat_planted _ _ _ _ Hs).
  - rewrite <- Hsrc.
    apply (file_write_frame _ _ _ Hfw); apply (html_page_apart ["K-matrix.html"]).
Qed.

Lemma page_is_copied_witness :
  ∃ fs', copy_julia_html_page scenario = Returned ["_static/K-matrix.html"] fs' ∧
         os_stat destination fs' = inr (File rw page) ∧
         os_stat html_page fs' = inr (File rw page).
Proof.
  apply (page_is_copied scenario rw rw page ∅);
    [vm_compute; reflexivity..|left; vm_compute; reflexivity].
Defined.

(** C1 as stated fails on a tree that meets its conditions: the page is
    there, [_static] is a writable directory, and the copy left there by an
    earlier build is read-only, as the page is.  Opening it for writing
    raises. *)
Lemma read_only_copy_blocks_publish :
  os_stat html_page republished = inr (File ro page) ∧
  os_stat static_path republished =
    inr (Dir rw {["K-matrix.html" := File ro page]}) ∧
  can_write rw = true ∧
  copy_julia_html_page republished = Raised PermissionError republished.
Proof. repeat split; vm_compute; reflexivity. Qed.

(** C2.  When [K-matrix.html] is absent the publisher returns the empty
    list and leaves the file system as it is, whatever the file system. *)
Theorem absent_page_no_write (FS : Type) (H : FileSystem FS) (fs : FS) :
  Path_exists (Path "K-matrix.html") fs = false →
  copy_julia_html_page fs = Returned [] fs.
Proof.
  intros Hex. unfold copy_julia_html_page, bind, gets. by rewrite Hex.
Qed.

Lemma absent_page_no_write_witness :
  copy_julia_html_page no_page = Returned [] no_page.
Proof.
  apply (absent_page_no_write node tree_fs no_page). vm_compute. reflexivity.
Defined.

(** C3, amended.  The caller drops the list: [html_static_path] is
    ["_static"] whatever the publisher returned, and never has the returned
    path as an element.  The returned path is [K-matrix.html] directly
    under the one directory listed there.  When the publisher raises, so
    does the module. *)
Theorem result_is_dropped (FS : Type) (H : FileSystem FS) (fs : FS) :
  match copy_julia_html_page fs with
  | Returned l fs' =>
      ∃ cfg, conf_py fs = Returned cfg fs' ∧
             html_static_path cfg = ["_static"] ∧
             ∀ p, p ∈ l →
                  (p ∉ html_static_path cfg) ∧
                  ∃ d, d ∈ html_static_path cfg ∧ p = d +:+ "/K-matrix.html"
  | Raised e fs' => conf_py fs = Raised e fs'
  end.
Proof.
  unfold conf_py, bind.
  destruct (copy_julia_html_page fs) as [l fs'|e fs'] eqn:Hpub; [|done].
  eexists. split; [done|]. split; [done|]. simpl.
  intros p Hp.
  assert (l = [] ∨ l = ["_static/K-matrix.html"]) as [-> | ->].
  { revert Hpub. unfold copy_julia_html_page, bind, gets, ret.
    destruct (Path_exists _ fs); [|intros [= <- _]; by left].
    destruct (shutil_copy _ _ fs); [|done]. intros [= <- _]. by right. }
  - by apply elem_of_nil in Hp.
  - apply list_elem_of_singleton in Hp as ->. split.
    + by intros ?%list_elem_of_singleton.
    + exists "_static". split; [by apply list_elem_of_singleton|done].
Qed.

(** C3 as stated fails in the first scenario: a copy occurs, and the
    returned path is not in the static-files list of the module. *)
Lemma published_path_not_listed :
  copy_julia_html_page scenario = Returned ["_static/K-matrix.html"] published ∧
  ∃ cfg, conf_py scenario = Returned cfg published ∧
         "_static/K-matrix.html" ∉ html_static_path cfg.
Proof.
  split; [vm_compute; reflexivity|].
  eexists. split; [vm_compute; reflexivity|].
  simpl. by intros ?%list_elem_of_singleton.
Qed.

(** C4, amended.  On a tree in scope (regular files and directories only,
    no links, one owner who is not the superuser, searchable directories,
    no device fault): when [K-matrix.html] is a regular file
    the build user can read and write, [_static] is a directory the build
    user can write to, and [_static/K-matrix.html] is absent or a regular
    file the build user can write, two calls in a row return the same
    one-element list, and the second leaves the tree, and so the content
    of the destination file, as the first left it. *)
Theorem publish_twice (fs : node) (m ms : mode) (data : list byte)
    (es : gmap string node) :
  os_stat html_page fs = inr (File m data) →
  can_read m = true → can_write m = true →
  os_stat static_path fs = inr (Dir ms es) → can_write ms = true →
  (es !! "K-matrix.html" = None ∨
   ∃ m0 data0, es !! "K-matrix.html" = Some (File m0 data0) ∧ can_write m0 = true) →
  ∃ fs1 fs2,
    copy_julia_html_page fs = Returned ["_static/K-matrix.html"] fs1 ∧
    copy_julia_html_page fs1 = Returned ["_static/K-matrix.html"] fs2 ∧
    os_stat destination fs1 = inr (File m data) ∧
    os_stat destination fs2 = os_stat destination fs1 ∧
    fs2 = fs1.
Proof.
  intros Hsrc Hr Hwm Hs Hw Hc.
  destruct (publish_copies fs m ms data es Hsrc Hr Hs) as [Hpub _].
  { destruct Hc as [Hc|Hc]; [left|right]; done. }
  exists (plant destination (File m data) fs), (plant destination (File m data) fs).
  split; [exact Hpub|]. split; [|split; [|done]].
  - apply (publish_again _ _ _ Hpub). intros m1 data1. rewrite Hsrc.
    by intros [= <- _].
  - by apply (os_stat_planted _ _ _ _ Hs).
Qed.

Lemma publish_twice_witness :
  ∃ fs1 fs2,
    copy_julia_html_page scenario = Returned ["_static/K-matrix.html"] fs1 ∧
    copy_julia_html_page fs1 = Returned ["_static/K-matrix.html"] fs2 ∧
    os_stat destination fs1 = inr (File rw page) ∧
    os_stat destination fs2 = os_stat destination fs1 ∧
    fs2 = fs1.
Proof.
  apply (publish_twice scenario rw rw page ∅);
    [vm_compute; reflexivity..|left; vm_compute; reflexivity].
Defined.

(** C4 as stated fails for a page that is read-only: the first call
    copies it with its permission bits, and the second cannot open the
    copy for writing. *)
Lemma read_only_page_not_republished :
  os_stat html_page read_only_page = inr (File ro page) ∧
  os_stat static_path read_only_page = inr (Dir rw ∅) ∧
  can_write rw = true ∧
  copy_julia_html_page read_only_page =
    Returned ["_static/K-matrix.html"] republished ∧
  copy_julia_html_page republished = Raised PermissionError republished.
Proof. repeat split; vm_compute; reflexivity. Qed.

(** C5.  When [K-matrix.html] exists and [_static] does not, the publisher
    raises, and the tree is as before; for a page that is a readable
    regular file the exception is [FileNotFoundError]. *)
Theorem missing_static_raises (fs : node) :
  os_path_exists html_page fs = true →
  os_path_exists static_path fs = false →
  ∃ e, copy_julia_html_page fs = Raised e fs ∧
       ∀ m data, os_stat html_page fs = inr (File m data) →
                 can_read m = true → e = FileNotFoundError.
Proof.
  intros Hex Hno.
  pose proof (publish_verdict fs) as Hv.
  destruct fs as [m0 d0|m0 es0]; [done|].
  assert (os_stat static_path (Dir m0 es0) = inl FileNotFoundError) as Hs.
  { revert Hno. unfold os_path_exists. simpl.
    by destruct (es0 !! "_static"). }
  rewrite Hs in Hv.
  destruct (copy_julia_html_page (Dir m0 es0)) as [l fs'|e fs'] eqn:Hpub.
  - exfalso. revert Hex Hv. unfold os_path_exists, verdict.
    destruct (os_stat html_page (Dir m0 es0)) as [|[m d|m es]]; [done|..]; simpl;
      by destruct (can_read m).
  - rewrite (publish_raised _ _ _ Hpub). exists e. split; [done|].
    intros m data Hsrc Hr. revert Hv. rewrite Hsrc. simpl. rewrite Hr. simpl.
    congruence.
Qed.

Lemma missing_static_raises_witness :
  ∃ e, copy_julia_html_page no_static = Raised e no_static ∧
       ∀ m data, os_stat html_page no_static = inr (File m data) →
                 can_read m = true → e = FileNotFoundError.
Proof.
  apply (missing_static_raises no_static); vm_compute; reflexivity.
Defined.

(** C6.  Whatever the file system and whatever makes the copy fail, when
    the page exists and [shutil.copy] raises [e], the publisher raises the
    same [e] and leaves the file system as the failed copy left it. *)
Theorem copy_failure_propagates (FS : Type) (H : FileSystem FS) (fs fs' : FS)
    (e : exn) :
  Path_exists (Path "K-matrix.html") fs = true →
  shutil_copy (Path "K-matrix.html") (Path "_static" </> Path "K-matrix.html") fs
    = Raised e fs' →
  copy_julia_html_page fs = Raised e fs'.
Proof.
  intros Hex Hcopy. unfold copy_julia_html_page, bind, gets.
  by rewrite Hex, Hcopy.
Qed.

Lemma copy_failure_propagates_witness :
  copy_julia_html_page no_static = Raised FileNotFoundError no_static ∧
  @copy_julia_html_page node failing_disk scenario =
    Raised (OSError EIO) half_published.
Proof.
  split.
  - apply (copy_failure_propagates node tree_fs no_static no_static
             FileNotFoundError); vm_compute; reflexivity.
  - apply (copy_failure_propagates node failing_disk scenario half_published
             (OSError EIO)); vm_compute; reflexivity.
Defined.

(** C7, amended.  With [K-matrix.html] a readable file of content
    [<html></html>], which is 13 bytes, and [_static] an empty writable
    directory, one call returns ["_static/K-matrix.html"] and leaves
    [_static] holding exactly that file, with the same 13 bytes. *)
Theorem scenario_page_published (fs : node) (m ms : mode) :
  os_stat html_page fs = inr (File m (list_byte_of_string "<html></html>")) →
  can_read m = true →
  os_stat static_path fs = inr (Dir ms ∅) → can_write ms = true →
  ∃ fs', copy_julia_html_page fs = Returned ["_static/K-matrix.html"] fs' ∧
         os_stat destination fs' =
           inr (File m (list_byte_of_string "<html></html>")) ∧
         os_stat static_path fs' =
           inr (Dir ms {["K-matrix.html" :=
                           File m (list_byte_of_string "<html></html>")]}) ∧
         length (list_byte_of_string "<html></html>") = 13.
Proof.
  intros Hsrc Hr Hs Hw.
  destruct (publish_copies fs m ms _ ∅ Hsrc Hr Hs) as [Hpub _]; [by left|].
  eexists. split; [exact Hpub|].
  destruct (os_stat_planted fs (File m (list_byte_of_string "<html></html>"))
              _ _ Hs) as [Hd Hs'].
  by rewrite Hd, Hs'.
Qed.

Lemma scenario_page_published_witness :
  ∃ fs', copy_julia_html_page scenario = Returned ["_static/K-matrix.html"] fs' ∧
         os_stat destination fs' =
           inr (File rw (list_byte_of_string "<html></html>")) ∧
         os_stat static_path fs' =
           inr (Dir rw {["K-matrix.html" :=
                           File rw (list_byte_of_string "<html></html>")]}) ∧
         length (list_byte_of_string "<html></html>") = 13.
Proof.
  apply (scenario_page_published scenario rw rw); vm_compute; reflexivity.
Defined.

(** C7 as stated fails on the size: in the scenario the copy is made and
    is identical to the page, but page and copy are 13 bytes, not 10. *)
Lemma scenario_page_not_10_bytes :
  os_stat html_page scenario = inr (File rw (list_byte_of_string "<html></html>")) ∧
  os_stat static_path scenario = inr (Dir rw ∅) ∧
  copy_julia_html_page scenario = Returned ["_static/K-matrix.html"] published ∧
  ∃ copied, os_stat destination published = inr (File rw copied) ∧
            copied = list_byte_of_string "<html></html>" ∧
            length copied ≠ 10.
Proof.
  split; [vm_compute; reflexivity|]. split; [vm_compute; reflexivity|].
  split; [vm_compute; reflexivity|].
  eexists. split; [vm_compute; reflexivity|]. split; [reflexivity|].
  vm_compute. discriminate.
Qed.

(** C8, amended.  On a tree in scope (regular files and directories only,
    no links, one owner who is not the superuser, searchable directories,
    no device fault): the publisher changes the tree at most
    by creating or overwriting one regular file, and only when the page
    exists: the file
    [_static/K-matrix.html], or, when that path is already a directory,
    the file [K-matrix.html] inside that directory.  Every path that
    resolved before the call resolves after it, to a node of the same
    kind, so nothing is deleted or renamed; every path that is neither
    above nor below the written file resolves to what it did; the page
    itself is as it was. *)
Theorem publish_frame (fs : node) :
  let fs' := final (copy_julia_html_page fs) in
  let spot := landing html_page destination fs in
  (os_path_exists html_page fs = false → fs' = fs) ∧
  (spot = destination ∧ os_path_isdir destination fs = false ∨
   spot = destination </> html_page ∧ os_path_isdir destination fs = true) ∧
  (fs' = fs ∨ os_path_exists html_page fs = true ∧ file_write spot fs fs') ∧
  os_stat html_page fs' = os_stat html_page fs ∧
  (∀ q x, os_stat q fs = inr x →
          ∃ x', os_stat q fs' = inr x' ∧ is_dir x' = is_dir x) ∧
  (∀ q, ¬ q `prefix_of` spot → ¬ spot `prefix_of` q →
        os_stat q fs' = os_stat q fs).
Proof.
  intros fs' spot. subst fs'.
  split; [intros Hex; by rewrite (publish_absent _ Hex)|].
  split; [apply landing_publish|].
  destruct (publish_outcome fs)
    as [Hex Hp|e Hex _ Hp|m data q c mq es Hsrc Hr Hland Hq Hfw Hp];
    rewrite Hp; unfold final; try (repeat split; eauto; fail).
  subst spot. rewrite Hland.
  assert (os_path_exists html_page fs = true) as Hex
    by (unfold os_path_exists; by rewrite Hsrc).
  destruct (landing_apart fs) as [Hsd Hds]. rewrite Hland in Hsd, Hds.
  split; [by right|]. split; [by apply (file_write_frame _ _ _ Hfw)|].
  split; [by apply (file_write_keeps _ _ _ Hfw)|].
  by apply (file_write_frame _ _ _ Hfw).
Qed.

(** C8 as stated fails when [_static/K-matrix.html] is a directory: the
    call returns, the write is not to the destination path, which stays a
    directory, but makes a file that was not there inside it. *)
Lemma copy_lands_below_destination :
  let fs := static_holds_directory in
  let fs' := final (copy_julia_html_page fs) in
  result (copy_julia_html_page fs) = inr ["_static/K-matrix.html"] ∧
  os_stat (destination </> html_page) fs = inl FileNotFoundError ∧
  os_stat (destination </> html_page) fs' = inr (File rw page) ∧
  os_path_isdir destination fs' = true ∧
  fs' ≠ fs ∧
  ¬ file_write destination fs fs'.
Proof.
  intros fs fs'.
  split; [vm_compute; reflexivity|]. split; [vm_compute; reflexivity|].
  assert (os_stat (destination </> html_page) fs' = inr (File rw page)) as Hnew
    by (vm_compute; reflexivity).
  split; [exact Hnew|]. split; [vm_compute; reflexivity|]. split.
  - intros Heq. rewrite Heq in Hnew. vm_compute in Hnew. discriminate.
  - intros Hfw.
    assert (os_stat destination fs = inr (Dir rw ∅)) as Hd
      by (vm_compute; reflexivity).
    by pose proof (file_write_spot _ _ _ Hfw _ Hd).
Qed.

(** C9.  When [K-matrix.html] is a directory the existence check succeeds
    and the publisher raises, with the tree as before: [IsADirectoryError]
    from opening the page for reading, or [PermissionError] when the
    directory cannot be read.  The publisher returns a list that is not
    empty only when the page was a regular file the build user can read. *)
Theorem page_directory_raises (fs : node) :
  (∀ m es, os_stat html_page fs = inr (Dir m es) →
     os_path_exists html_page fs = true ∧
     copy_julia_html_page fs =
       Raised (if can_read m then IsADirectoryError else PermissionError) fs) ∧
  (∀ l fs', copy_julia_html_page fs = Returned l fs' → l ≠ [] →
     ∃ m data, os_stat html_page fs = inr (File m data) ∧ can_read m = true).
Proof.
  split.
  - intros m es Hsrc.
    assert (os_path_exists html_page fs = true) as Hex
      by (unfold os_path_exists; by rewrite Hsrc).
    split; [done|]. eapply publish_source_fails; [done|].
    unfold open_rb. rewrite Hsrc. by destruct (can_read m).
  - intros l fs' Hpub Hl.
    destruct (publish_outcome fs)
      as [_ Hp|e _ _ Hp|m data q c mq es Hsrc Hr _ _ _ Hp];
      rewrite Hp in Hpub; [|done|by eauto].
    injection Hpub as <- <-. done.
Qed.

Lemma page_directory_raises_witness :
  (os_path_exists html_page page_is_directory = true ∧
   copy_julia_html_page page_is_directory =
     Raised IsADirectoryError page_is_directory) ∧
  ∃ m data, os_stat html_page scenario = inr (File m data) ∧ can_read m = true.
Proof.
  split.
  - apply (proj1 (page_directory_raises page_is_directory) rw ∅).
    vm_compute. reflexivity.
  - apply (proj2 (page_directory_raises scenario)
             ["_static/K-matrix.html"] published);
      [vm_compute; reflexivity|discriminate].
Defined.

(** C10, amended.  On a tree in scope (regular files and directories only,
    no links, one owner who is not the superuser, searchable directories,
    no device fault) the outcome of the build user's call, list or
    exception and resulting tree, is a fixed function of the tree, read
    off what [K-matrix.html] and [_static] resolve to.  With the page
    absent it is the empty list and the tree as it was.  With the page a
    directory or unreadable it is [IsADirectoryError] or [PermissionError]
    as [verdict] tells, and with the page a readable file that cannot be
    put in its place it is the exception [refusal] gives for the directory
    that is to hold the copy; the tree is as it was.  Otherwise it is
    ["_static/K-matrix.html"] and the tree with the page's node planted
    where the copy lands.  So two calls of the build user on identical
    trees have equal outcomes. *)
Theorem publish_is_decided_by_tree (fs : node) :
  copy_julia_html_page fs =
  match verdict (os_stat html_page fs) (os_stat static_path fs),
        os_stat html_page fs with
  | inl e, _ => Raised e fs
  | inr (name :: rest), inr pg =>
      Returned (name :: rest) (plant (landing html_page destination fs) pg fs)
  | inr l, _ => Returned l fs
  end.
Proof.
  pose proof (publish_verdict fs) as Hv.
  destruct (publish_outcome fs)
    as [_ Hp|e _ _ Hp|m data q c mq es Hsrc Hr Hland Hq Hfw Hp];
    rewrite Hp in Hv; unfold result in Hv; rewrite <- Hv, Hp.
  - by destruct (os_stat html_page fs).
  - done.
  - by rewrite Hsrc, Hland.
Qed.

(** C10 as stated fails: the result is not decided by the file system
    alone, it depends on who calls.  On one and the same tree, with a
    read-only copy in place, the build user's call raises
    [PermissionError] and the superuser's returns the list; both leave the
    tree as it is. *)
Lemma result_depends_on_caller :
  @copy_julia_html_page node tree_fs republished =
    Raised PermissionError republished ∧
  @copy_julia_html_page node superuser_fs republished =
    Returned ["_static/K-matrix.html"] republished.
Proof. split; vm_compute; reflexivity. Qed.

(** * Further properties of the publisher *)

Lemma os_stat_errors (p : path) (fs : node) (e : exn) :
  os_stat p fs = inl e → e = FileNotFoundError ∨ e = NotADirectoryError.
Proof.
  revert fs; induction p as [|c p IH]; intros fs; simpl; [done|].
  destruct fs as [m d|m es]; [intros [= <-]; by right|].
  destruct (es !! c); [apply IH|intros [= <-]; by left].
Qed.

(** The tree a copy leaves: the page is as it was, the copy is where the
    next call will put it again, with the bytes and the bits of the page. *)
Lemma after_copy (fs : node) (m mq : mode) (data : list byte) (q : path)
    (c : string) (es : gmap string node) :
  os_stat html_page fs = inr (File m data) →
  landing html_page destination fs = q ++ [c] →
  os_stat q fs = inr (Dir mq es) →
  file_write (q ++ [c]) fs (plant (q ++ [c]) (File m data) fs) →
  let fs1 := plant (q ++ [c]) (File m data) fs in
  os_stat html_page fs1 = inr (File m data) ∧
  landing html_page destination fs1 = q ++ [c] ∧
  os_stat (q ++ [c]) fs1 = inr (File m data).
Proof.
  intros Hsrc Hland Hq Hfw fs1. subst fs1.
  destruct (landing_apart fs) as [Hsd Hds]. rewrite Hland in Hsd, Hds.
  pose proof (os_stat_plant_new q c fs (File m data) _ _ Hq) as Hd1.
  split; [|split; [|done]].
  - rewrite <- Hsrc. by apply (file_write_frame _ _ _ Hfw).
  - unfold landing, os_path_isdir.
    destruct (landing_publish fs) as [[Heq Hdir]|[Heq Hdir]];
      rewrite Heq in Hland.
    + change (["_static"] ++ ["K-matrix.html"]) with destination in Hland.
      by rewrite Hland, Hd1.
    + unfold os_path_isdir in Hdir.
      destruct (os_stat destination fs) as [|x] eqn:Hdst; [done|].
      destruct (file_write_keeps _ _ _ Hfw _ _ Hdst) as (x' & -> & Hk).
      destruct x; [done|]. by destruct x'.
Qed.

(** X1.  On a tree in scope (regular files and directories only,
    no links, one owner who is not the superuser, searchable directories,
    no device fault): a call that raises has written nothing.  The
    tree is exactly as it was, with no new, emptied or half-written file
    under [_static].  And the call raises only when the page exists. *)
Theorem failed_publish_writes_nothing (fs fs' : node) (e : exn) :
  copy_julia_html_page fs = Raised e fs' →
  fs' = fs ∧ os_path_exists html_page fs = true.
Proof.
  intros Hpub.
  destruct (publish_outcome fs)
    as [_ Hp|e' Hex _ Hp|m data q c mq es _ _ _ _ _ Hp];
    rewrite Hp in Hpub; [done| |done].
  by injection Hpub as <- <-.
Qed.

Lemma failed_publish_writes_nothing_witness :
  republished = republished ∧ os_path_exists html_page republished = true.
Proof.
  apply (failed_publish_writes_nothing republished republished PermissionError).
  vm_compute. reflexivity.
Defined.

(** X2.  Once a call has returned, and the page (if there is one) can be
    written by the build user, any number of further calls return the same
    list and leave the tree exactly as the first call left it. *)
Theorem rebuilds_are_stable (fs fs1 : node) (l : list string) (n : nat) :
  copy_julia_html_page fs = Returned l fs1 →
  (∀ m data, os_stat html_page fs = inr (File m data) → can_write m = true) →
  rebuild n fs1 = Returned l fs1.
Proof.
  intros Hpub Hw. pose proof (publish_again _ _ _ Hpub Hw) as Hfix.
  induction n as [|n IH]; simpl; [done|].
  unfold bind. by rewrite Hfix.
Qed.

Lemma rebuilds_are_stable_witness :
  rebuild 3 published = Returned ["_static/K-matrix.html"] published.
Proof.
  apply (rebuilds_are_stable scenario published ["_static/K-matrix.html"] 3).
  - vm_compute. reflexivity.
  - intros m data. vm_compute. intros [= <- _]. reflexivity.
Defined.

(** X3.  On a tree in scope (regular files and directories only,
    no links, one owner who is not the superuser, searchable directories,
    no device fault): a page of the build user's whose owner write bit
    is cleared is published at most once.  Whenever a call has copied such
    a page, the next call raises [PermissionError], because the copy, also
    the build user's, has taken over the permission bits of the page and
    cannot be opened for writing. *)
Theorem read_only_page_publishes_once (fs fs1 : node) (m : mode)
    (data : list byte) (l : list string) :
  os_stat html_page fs = inr (File m data) → can_write m = false →
  copy_julia_html_page fs = Returned l fs1 →
  copy_julia_html_page fs1 = Raised PermissionError fs1.
Proof.
  intros Hsrc Hw Hpub.
  destruct (publish_outcome fs)
    as [Hex _|e _ _ Hp|m' data' q c mq es Hsrc' Hr Hland Hq Hfw Hp].
  - unfold os_path_exists in Hex. by rewrite Hsrc in Hex.
  - by rewrite Hp in Hpub.
  - rewrite Hp in Hpub. injection Hpub as <- <-.
    rewrite Hsrc in Hsrc'. injection Hsrc' as <- <-.
    destruct (after_copy _ _ _ _ _ _ _ Hsrc Hland Hq Hfw) as (Hsrc1 & Hland1 & Hd1).
    rewrite publish_present by (unfold os_path_exists; by rewrite Hsrc1).
    erewrite copy_target_fails; [done|apply html_page_not_landing| |].
    + unfold open_rb. by rewrite Hsrc1, Hr.
    + rewrite Hland1. by eapply open_wb_read_only.
Qed.

Lemma read_only_page_publishes_once_witness :
  copy_julia_html_page republished = Raised PermissionError republished.
Proof.
  apply (read_only_page_publishes_once read_only_page republished ro page
           ["_static/K-matrix.html"]); vm_compute; reflexivity.
Defined.

(** X4.  On a tree in scope (regular files and directories only,
    no links, one owner who is not the superuser, searchable directories,
    no device fault): when the page is a regular file the build user
    can read and [_static/K-matrix.html] is a directory in which
    [K-matrix.html] is absent, the directory being writable, or a regular
    file that is writable, the call returns ["_static/K-matrix.html"] all
    the same, but that path is still a directory afterwards: the copy is
    the file [K-matrix.html] inside it. *)
Theorem copy_into_directory (fs : node) (m ms mk : mode) (data : list byte)
    (es ek : gmap string node) :
  os_stat html_page fs = inr (File m data) → can_read m = true →
  os_stat static_path fs = inr (Dir ms es) →
  es !! "K-matrix.html" = Some (Dir mk ek) →
  (ek !! "K-matrix.html" = None ∧ can_write mk = true ∨
   ∃ m0 data0, ek !! "K-matrix.html" = Some (File m0 data0) ∧ can_write m0 = true) →
  ∃ fs', copy_julia_html_page fs = Returned ["_static/K-matrix.html"] fs' ∧
         os_path_isdir destination fs' = true ∧
         os_stat (destination </> html_page) fs' = inr (File m data).
Proof.
  intros Hsrc Hr Hs Hk Hc.
  assert (os_stat destination fs = inr (Dir mk ek)) as Hd
    by (rewrite (os_stat_destination _ _ _ Hs); by rewrite Hk).
  assert (landing html_page destination fs = destination ++ ["K-matrix.html"])
    as Hland by (unfold landing, os_path_isdir; by rewrite Hd).
  assert (∃ fs1, open_wb (destination ++ ["K-matrix.html"]) fs = Returned () fs1)
    as [fs1 Hwb].
  { destruct Hc as [[Hc Hw]|(m0 & d0 & Hc & Hw)].
    - eexists. by apply (open_wb_creates _ _ _ _ _ Hd Hc Hw).
    - eexists. eapply open_wb_truncates; [|exact Hw].
      rewrite os_stat_app, Hd. simpl. by rewrite Hc. }
  destruct (html_page_apart ["K-matrix.html"; "K-matrix.html"]) as [Hsd Hds].
  destruct (copy_succeeds _ _ _ _ _ _ _ _ _ Hland Hsd Hds Hsrc Hr Hwb)
    as [Hcopy Hfw].
  eexists. split; [|split].
  - rewrite publish_present by (unfold os_path_exists; by rewrite Hsrc).
    by rewrite Hcopy.
  - unfold os_path_isdir.
    destruct (file_write_keeps _ _ _ Hfw _ _ Hd) as (x' & -> & Hx').
    by destruct x'.
  - by eapply os_stat_plant_new.
Qed.

Lemma copy_into_directory_witness :
  ∃ fs', copy_julia_html_page static_holds_directory =
           Returned ["_static/K-matrix.html"] fs' ∧
         os_path_isdir destination fs' = true ∧
         os_stat (destination </> html_page) fs' = inr (File rw page).
Proof.
  apply (copy_into_directory static_holds_directory rw rw rw page
           {["K-matrix.html" := Dir rw ∅]} ∅);
    [vm_compute; reflexivity..|left; vm_compute; split; reflexivity].
Defined.

(** X5.  On a tree in scope (regular files and directories only,
    no links, one owner who is not the superuser, searchable directories,
    no device fault): the publisher raises one of four exceptions
    only, [FileNotFoundError], [NotADirectoryError], [IsADirectoryError] or
    [PermissionError].  In particular, there being no links, [shutil.copy]
    never finds the page and its destination to be the same file. *)
Theorem publish_raises_four (fs fs' : node) (e : exn) :
  copy_julia_html_page fs = Raised e fs' →
  e = FileNotFoundError ∨ e = NotADirectoryError ∨
  e = IsADirectoryError ∨ e = PermissionError.
Proof.
  intros Hpub. pose proof (publish_verdict fs) as Hv.
  rewrite Hpub in Hv. unfold result in Hv. revert Hv. unfold verdict.
  destruct (os_stat html_page fs) as [e0|[m d|m es]]; [done|..].
  - destruct (can_read m); [|intros [= ->]; eauto].
    destruct (refusal _ _) as [e1|] eqn:Href; [|done]. intros [= ->].
    revert Href. unfold refusal, holder.
    destruct (os_stat static_path fs) as [e2|[ms ds|ms es]] eqn:Hs.
    + intros [= <-]. destruct (os_stat_errors _ _ _ Hs) as [-> | ->]; eauto.
    + intros [= <-]. eauto.
    + destruct (es !! "K-matrix.html") as [[m0 d0|mk ek]|] eqn:Hk; rewrite ?Hk.
      * destruct (can_write m0); [done|]. intros [= <-]. eauto.
      * destruct (ek !! "K-matrix.html") as [[m1 d1|m1 e1']|].
        -- destruct (can_write m1); [done|]. intros [= <-]. eauto.
        -- intros [= <-]. eauto.
        -- destruct (can_write mk); [done|]. intros [= <-]. eauto.
      * destruct (can_write ms); [done|]. intros [= <-]. eauto.
  - destruct (can_read m); intros [= ->]; eauto.
Qed.

Lemma publish_raises_four_witness :
  FileNotFoundError = FileNotFoundError ∨
  FileNotFoundError = NotADirectoryError ∨
  FileNotFoundError = IsADirectoryError ∨
  FileNotFoundError = PermissionError.
Proof.
  apply (publish_raises_four no_static no_static FileNotFoundError).
  vm_compute. reflexivity.
Defined.

(** X6.  On a tree in scope (regular files and directories only,
    no links, one owner who is not the superuser, searchable directories,
    no device fault): the page is opened before the destination is
    opened for writing.  When the page exists and the build user may not
    read it, the publisher raises [PermissionError] and leaves the tree as
    it is, whether [_static] is missing, a file or a directory, and
    whatever it holds. *)
Theorem unreadable_page_raises (fs x : node) :
  os_stat html_page fs = inr x → can_read (st_mode x) = false →
  copy_julia_html_page fs = Raised PermissionError fs.
Proof.
  intros Hsrc Hr.
  eapply publish_source_fails; [unfold os_path_exists; by rewrite Hsrc|].
  unfold open_rb. rewrite Hsrc. destruct x as [m d|m es]; simpl in Hr; by rewrite Hr.
Qed.

Lemma unreadable_page_raises_witness :
  copy_julia_html_page (tree_of [("K-matrix.html", File (Mode false true) page)])
  = Raised PermissionError (tree_of [("K-matrix.html", File (Mode false true) page)]).
Proof.
  apply (unreadable_page_raises _ (File (Mode false true) page));
    vm_compute; reflexivity.
Defined.

(** X7.  When the page is a readable file and [_static] is a regular file,
    not a directory, the publisher raises [NotADirectoryError] and leaves
    the tree, the file [_static] included, as it is. *)
Theorem static_regular_file_raises (fs : node) (m ms : mode)
    (data sdata : list byte) :
  os_stat html_page fs = inr (File m data) → can_read m = true →
  os_stat static_path fs = inr (File ms sdata) →
  copy_julia_html_page fs = Raised NotADirectoryError fs.
Proof.
  intros Hsrc Hr Hs.
  assert (landing html_page destination fs = static_path ++ ["K-matrix.html"])
    as Hland.
  { unfold landing, os_path_isdir.
    change destination with (static_path ++ ["K-matrix.html"]).
    by rewrite os_stat_app, Hs. }
  rewrite publish_present by (unfold os_path_exists; by rewrite Hsrc).
  erewrite copy_target_fails; [done|apply html_page_not_landing| |].
  - unfold open_rb. by rewrite Hsrc, Hr.
  - rewrite Hland. by eapply open_wb_under_file.
Qed.

Lemma static_regular_file_raises_witness :
  copy_julia_html_page
    (tree_of [("K-matrix.html", File rw page); ("_static", File rw [])])
  = Raised NotADirectoryError
      (tree_of [("K-matrix.html", File rw page); ("_static", File rw [])]).
Proof.
  apply (static_regular_file_raises _ rw rw page []); vm_compute; reflexivity.
Defined.

(** X8.  Write permission on [_static] is needed to create the copy: when
    the page is a readable file and [_static] is a directory the build
    user cannot write to, with no [K-matrix.html] in it, the publisher
    raises [PermissionError] and leaves the tree as it is. *)
Theorem locked_static_raises (fs : node) (m ms : mode) (data : list byte)
    (es : gmap string node) :
  os_stat html_page fs = inr (File m data) → can_read m = true →
  os_stat static_path fs = inr (Dir ms es) → can_write ms = false →
  es !! "K-matrix.html" = None →
  copy_julia_html_page fs = Raised PermissionError fs.
Proof.
  intros Hsrc Hr Hs Hw Hk.
  assert (landing html_page destination fs = static_path ++ ["K-matrix.html"])
    as Hland.
  { unfold landing, os_path_isdir.
    by rewrite (os_stat_destination _ _ _ Hs), Hk. }
  rewrite publish_present by (unfold os_path_exists; by rewrite Hsrc).
  erewrite copy_target_fails; [done|apply html_page_not_landing| |].
  - unfold open_rb. by rewrite Hsrc, Hr.
  - rewrite Hland. by eapply open_wb_locked.
Qed.

Lemma locked_static_raises_witness :
  copy_julia_html_page
    (tree_of [("K-matrix.html", File rw page); ("_static", Dir ro ∅)])
  = Raised PermissionError
      (tree_of [("K-matrix.html", File rw page); ("_static", Dir ro ∅)]).
Proof.
  apply (locked_static_raises _ rw ro page ∅); vm_compute; reflexivity.
Defined.

(** X9.  On a tree in scope (regular files and directories only,
    no links, one owner who is not the superuser, searchable directories,
    no device fault): write permission on [_static] is not needed to
    replace a copy that is there.  When the page is a readable file and
    [_static/K-matrix.html] is a regular file the build user can write,
    the publisher returns ["_static/K-matrix.html"] and the copy has the
    bytes and the permission bits of the page, whatever it held before and
    whether or not [_static] itself can be written to; nothing else in
    [_static] changes. *)
Theorem stale_copy_replaced (fs : node) (m ms m0 : mode)
    (data data0 : list byte) (es : gmap string node) :
  os_stat html_page fs = inr (File m data) → can_read m = true →
  os_stat static_path fs = inr (Dir ms es) →
  es !! "K-matrix.html" = Some (File m0 data0) → can_write m0 = true →
  ∃ fs', copy_julia_html_page fs = Returned ["_static/K-matrix.html"] fs' ∧
         os_stat static_path fs' =
           inr (Dir ms (<["K-matrix.html" := File m data]> es)).
Proof.
  intros Hsrc Hr Hs Hk Hw.
  destruct (publish_copies fs m ms data es Hsrc Hr Hs) as [Hpub _]; [eauto 10|].
  eexists. split; [exact Hpub|]. by apply (os_stat_planted _ _ _ _ Hs).
Qed.

Lemma stale_copy_replaced_witness :
  ∃ fs', copy_julia_html_page
           (tree_of [("K-matrix.html", File rw page);
                     ("_static", Dir ro {["K-matrix.html" := File rw []]})])
         = Returned ["_static/K-matrix.html"] fs' ∧
         os_stat static_path fs' =
           inr (Dir ro (<["K-matrix.html" := File rw page]>
                          {["K-matrix.html" := File rw []]})).
Proof.
  apply (stale_copy_replaced _ rw ro rw page []); vm_compute; reflexivity.
Defined.

Lemma refusal_none (c : string) (d : exn + node) :
  refusal c d = None ↔
  ∃ mq es, d = inr (Dir mq es) ∧
    (es !! c = None ∧ can_write mq = true ∨
     ∃ m0 data0, es !! c = Some (File m0 data0) ∧ can_write m0 = true).
Proof.
  unfold refusal. split.
  - destruct d as [e|[m dd|mq es]]; [done..|].
    destruct (es !! c) as [[m0 d0|m0 e0]|] eqn:Hc; [| done |].
    + destruct (can_write m0) eqn:Hw; [|done]. eauto 10.
    + destruct (can_write mq) eqn:Hw; [|done]. eauto 10.
  - intros (mq & es & -> & [[-> ->]|(m0 & d0 & -> & ->)]); done.
Qed.

(** X10.  On a tree in scope (regular files and directories only,
    no links, one owner who is not the superuser, searchable directories,
    no device fault): the publisher returns the one-element list
    exactly when the page is a regular file the build user can read and the
    directory that is to hold the copy ([_static], or
    [_static/K-matrix.html] when that is a directory) is a directory in
    which [K-matrix.html] is either absent, the directory being writable,
    or a regular file that is writable. *)
Theorem publish_succeeds_iff (fs : node) :
  (∃ fs', copy_julia_html_page fs = Returned ["_static/K-matrix.html"] fs') ↔
  ∃ m data q mq es,
    os_stat html_page fs = inr (File m data) ∧ can_read m = true ∧
    landing html_page destination fs = q ++ ["K-matrix.html"] ∧
    os_stat q fs = inr (Dir mq es) ∧
    (es !! "K-matrix.html" = None ∧ can_write mq = true ∨
     ∃ m0 data0, es !! "K-matrix.html" = Some (File m0 data0) ∧
                 can_write m0 = true).
Proof.
  pose proof (publish_verdict fs) as Hv.
  destruct (landing_holder fs) as (q & Hland & Hq). split.
  - intros [fs' Hpub]. rewrite Hpub in Hv. unfold result, verdict in Hv.
    destruct (os_stat html_page fs) as [e|[m data|m es]]; [done| |done].
    destruct (can_read m) eqn:Hr; [|done].
    destruct (refusal _ _) eqn:Href; [done|]. rewrite <- Hq in Href.
    apply refusal_none in Href as (mq & es & Hq' & Hc).
    exists m, data, q, mq, es. eauto.
  - intros (m & data & q' & mq & es & Hsrc & Hr & Hland' & Hq' & Hc).
    rewrite Hland in Hland'. apply app_inj_tail in Hland' as [<- _].
    rewrite Hsrc in Hv. unfold verdict in Hv. rewrite Hr, <- Hq in Hv.
    rewrite (proj2 (refusal_none _ _)) in Hv by eauto.
    destruct (copy_julia_html_page fs) as [l fs'|e fs']; [|done].
    injection Hv as ->. eauto.
Qed.

Lemma publish_succeeds_iff_witness :
  ∃ fs', copy_julia_html_page scenario = Returned ["_static/K-matrix.html"] fs'.
Proof.
  apply (proj2 (publish_succeeds_iff scenario)).
  exists rw, page, ["_static"], rw, ∅.
  repeat split; try (vm_compute; reflexivity).
  left. split; vm_compute; reflexivity.
Defined.

Lemma os_stat_static_planted (r : path) (fs st x : node) :
  os_stat static_path fs = inr st →
  os_stat static_path (plant (static_path ++ r) x fs) = inr (plant r x st).
Proof.
  intros Hs. by rewrite (plant_app _ _ _ _ _ Hs), (os_stat_plant _ _ _ _ Hs).
Qed.

Lemma landing_in_static (fs st : node) :
  os_stat static_path fs = inr st →
  landing html_page destination fs =
  static_path ++ landing html_page html_page st.
Proof.
  intros Hs. unfold landing, os_path_isdir.
  change destination with (static_path ++ html_page).
  rewrite os_stat_app, Hs.
  by destruct (os_stat html_page st) as [|[|]].
Qed.

(** What a call leaves at [_static], from what it found there and at the
    page. *)
Lemma static_after_publish (fs : node) :
  os_stat static_path (final (publish fs)) =
  match result (publish fs), os_stat html_page fs, os_stat static_path fs with
  | inr (_ :: _), inr x, inr st =>
      inr (plant (landing html_page html_page st) x st)
  | _, _, s => s
  end.
Proof.
  destruct (publish_outcome fs)
    as [_ Hp|e _ _ Hp|m data q c mq es Hsrc Hr Hland Hq Hfw Hp]; rewrite Hp;
    unfold final, result; [done| |].
  { by destruct (os_stat html_page fs), (os_stat static_path fs). }
  rewrite Hsrc. change (str destination) with "_static/K-matrix.html".
  destruct (os_stat static_path fs) as [e|st] eqn:Hs.
  - exfalso.
    destruct (landing_publish fs) as [[Heq _]|[Heq _]]; rewrite Heq in Hland;
      apply app_inj_tail in Hland as [<- _].
    + change ["_static"] with static_path in Hq. by rewrite Hs in Hq.
    + change ["_static"; "K-matrix.html"] with (static_path ++ html_page) in Hq.
      by rewrite os_stat_app, Hs in Hq.
  - rewrite <- Hland, (landing_in_static _ _ Hs).
    by apply os_stat_static_planted.
Qed.

(** X11.  What a call leaves at [_static] is decided by what the page and
    [_static] resolve to alone: on two trees that agree on these two
    paths, however they differ elsewhere, the calls leave the same
    [_static]. *)
Theorem publish_effect_is_local (fs1 fs2 : node) :
  os_stat html_page fs1 = os_stat html_page fs2 →
  os_stat static_path fs1 = os_stat static_path fs2 →
  os_stat static_path (final (copy_julia_html_page fs1)) =
  os_stat static_path (final (copy_julia_html_page fs2)).
Proof.
  intros Hp Hs. by rewrite !static_after_publish, !publish_verdict, Hp, Hs.
Qed.

Lemma publish_effect_is_local_witness :
  os_stat static_path (final (copy_julia_html_page scenario)) =
  os_stat static_path
    (final (copy_julia_html_page
              (tree_of [("K-matrix.html", File rw page); ("_static", Dir rw ∅);
                        ("index.md", File ro [])]))).
Proof.
  apply (publish_effect_is_local scenario _); vm_compute; reflexivity.
Defined.

(** X12.  On a tree in scope (regular files and directories only,
    no links, one owner who is not the superuser, searchable directories,
    no device fault): a copy that is there and cannot be written
    blocks the publisher.  When the page is a readable file and
    [_static/K-matrix.html] is a
    regular file the build user cannot write, the publisher raises
    [PermissionError] and leaves the tree, the old copy included, as it
    is, whether or not [_static] itself can be written to. *)
Theorem read_only_copy_raises (fs : node) (m ms m0 : mode)
    (data data0 : list byte) (es : gmap string node) :
  os_stat html_page fs = inr (File m data) → can_read m = true →
  os_stat static_path fs = inr (Dir ms es) →
  es !! "K-matrix.html" = Some (File m0 data0) → can_write m0 = false →
  copy_julia_html_page fs = Raised PermissionError fs.
Proof.
  intros Hsrc Hr Hs Hk Hw.
  pose proof (os_stat_destination _ _ _ Hs) as Hd. rewrite Hk in Hd.
  assert (landing html_page destination fs = destination) as Hland
    by (unfold landing, os_path_isdir; by rewrite Hd).
  rewrite publish_present by (unfold os_path_exists; by rewrite Hsrc).
  erewrite copy_target_fails; [done|apply html_page_not_landing| |].
  - unfold open_rb. by rewrite Hsrc, Hr.
  - rewrite Hland. by eapply open_wb_read_only.
Qed.

Lemma read_only_copy_raises_witness :
  copy_julia_html_page
    (tree_of [("K-matrix.html", File rw page);
              ("_static", Dir rw {["K-matrix.html" := File ro []]})])
  = Raised PermissionError
      (tree_of [("K-matrix.html", File rw page);
                ("_static", Dir rw {["K-matrix.html" := File ro []]})]).
Proof.
  apply (read_only_copy_raises _ rw rw ro page []
           {["K-matrix.html" := File ro []]}); vm_compute; reflexivity.
Defined.

(** X13.  The copy is redirected into a directory once only: when the page
    is a readable file and both [_static/K-matrix.html] and
    [_static/K-matrix.html/K-matrix.html] are directories, the publisher
    raises [IsADirectoryError] and leaves the tree as it is. *)
Theorem nested_directory_raises (fs : node) (m ms mk mn : mode)
    (data : list byte) (es ek en : gmap string node) :
  os_stat html_page fs = inr (File m data) → can_read m = true →
  os_stat static_path fs = inr (Dir ms es) →
  es !! "K-matrix.html" = Some (Dir mk ek) →
  ek !! "K-matrix.html" = Some (Dir mn en) →
  copy_julia_html_page fs = Raised IsADirectoryError fs.
Proof.
  intros Hsrc Hr Hs Hk Hn.
  pose proof (os_stat_destination _ _ _ Hs) as Hd. rewrite Hk in Hd.
  assert (landing html_page destination fs = destination ++ ["K-matrix.html"])
    as Hland by (unfold landing, os_path_isdir; by rewrite Hd).
  rewrite publish_present by (unfold os_path_exists; by rewrite Hsrc).
  erewrite copy_target_fails; [done|apply html_page_not_landing| |].
  - unfold open_rb. by rewrite Hsrc, Hr.
  - rewrite Hland. apply (open_wb_directory _ _ mn en).
    rewrite os_stat_app, Hd. simpl. by rewrite Hn.
Qed.

Lemma nested_directory_raises_witness :
  copy_julia_html_page
    (tree_of [("K-matrix.html", File rw page);
              ("_static",
               Dir rw {["K-matrix.html" :=
                          Dir rw {["K-matrix.html" := Dir rw ∅]}]})])
  = Raised IsADirectoryError
      (tree_of [("K-matrix.html", File rw page);
                ("_static",
                 Dir rw {["K-matrix.html" :=
                            Dir rw {["K-matrix.html" := Dir rw ∅]}]})]).
Proof.
  apply (nested_directory_raises _ rw rw rw rw page
           {["K-matrix.html" := Dir rw {["K-matrix.html" := Dir rw ∅]}]}
           {["K-matrix.html" := Dir rw ∅]} ∅); vm_compute; reflexivity.
Defined.
